(** * cogs/help.py: the help menu of the bot

    A shallow embedding of [src/cogs/help.py] (the [Dropdown] selector, the
    [HelpEmbed] panel, the [MyHelp] dispatcher and [get_help]) and the
    properties of its rendering and selection paths.

    Python objects that the code only reads are records; the option list that
    [send_bot_help] builds is a Python list object that is shared between the
    local variable [myoptions] and the [Select] control, so it lives in a heap
    and is addressed by reference.  Sending and editing messages are recorded
    in a log of effects; exceptions are an explicit result. *)

From Stdlib Require Import ZArith Floats.SpecFloat.
From stdpp Require Import base option list strings gmap pretty.

Open Scope Z_scope.

(** ** Python values *)

(** [x or d] for [x : Optional[str]]: [None] and the empty string are falsy. *)
Definition py_or (x : option string) (d : string) : string :=
  match x with
  | Some s => if decide (s = "") then d else s
  | None => d
  end.

(** [str(x)] for [x : Optional[str]]. *)
Definition py_str (x : option string) : string :=
  match x with
  | Some s => s
  | None => "None"
  end.

(** Truthiness of a list: only the empty list is falsy. *)
Definition py_truthy {A} (l : list A) : bool :=
  match l with
  | [] => false
  | _ :: _ => true
  end.

(** A short help text that is "empty or absent". *)
Definition no_text (x : option string) : Prop := x = None ∨ x = Some "".

(** Integer nearest to [m * 2^e], ties to the even neighbour: the digits
    that [format(x, ".0f")] prints for the finite float of mantissa [m] and
    exponent [e]. *)
Definition round_half_even (m : positive) (e : Z) : Z :=
  if decide (0 ≤ e) then Z.pos m * 2 ^ e
  else
    let d := 2 ^ (- e) in
    let q := Z.pos m / d in
    let r := Z.pos m mod d in
    match 2 * r ?= d with
    | Lt => q
    | Gt => q + 1
    | Eq => if Z.even q then q else q + 1
    end.

(** [f"{x:.0f}"] for a Python float, as an IEEE 754 value. *)
Definition format_0f (x : spec_float) : string :=
  match x with
  | S754_zero s => if s then "-0" else "0"
  | S754_infinity s => if s then "-inf" else "inf"
  | S754_nan => "nan"
  | S754_finite s m e =>
      (if s then "-" else "") +:+ pretty (round_half_even m e)
  end.

(** The whole part of [m * 2^e], what truncation would print. *)
Definition truncate (m : positive) (e : Z) : Z :=
  if decide (0 ≤ e) then Z.pos m * 2 ^ e else Z.pos m / 2 ^ (- e).

(** [n] is an integer nearest to [m * 2^e], and the even one on a tie. *)
Definition nearest_even (m : positive) (e : Z) (n : Z) : Prop :=
  if decide (0 ≤ e) then n = Z.pos m * 2 ^ e
  else
    let d := 2 ^ (- e) in
    2 * Z.abs (Z.pos m - n * d) ≤ d ∧
    (2 * Z.abs (Z.pos m - n * d) = d → Z.even n = true).

(** ** The registry of the host framework (read only) *)

(** [commands.Cooldown]: [rate] uses per [per] seconds. *)
Record Cooldown := { rate : Z; per : spec_float }.

(** [commands.CooldownMapping]; only [_cooldown] is read. *)
Record CooldownMapping := { _cooldown : option Cooldown }.

(** [commands.Command].  [cog] is the [qualified_name] of [command.cog], the
    only attribute of it that the help code reads. *)
Record Command := {
  name : string;
  brief : option string;
  help : option string;
  hidden : bool;
  cog : option string;
  _buckets : option CooldownMapping;
}.

(** [commands.Group]: a command that owns child commands. *)
Record Group := {
  group_command : Command;
  commands : list Command;
}.

(** [commands.Cog]: [cog_description] is [cog.description], [cog_doc] is
    [cog.__doc__], [get_commands] is the result of [cog.get_commands()]. *)
Record Cog := {
  qualified_name : string;
  cog_description : string;
  cog_doc : option string;
  get_commands : list Command;
}.

(** [commands.Bot]: [cogs] is the dict of the registered cogs by name,
    [user_name] is [bot.user.name]. *)
Record Bot := {
  cogs : gmap string Cog;
  user_name : string;
}.

(** [commands.Context]: [me_display_name] is [ctx.me.display_name]. *)
Record Context := {
  bot : Bot;
  me_display_name : string;
}.

(** ** Panels and controls *)

Record EmbedField := {
  field_name : string;
  field_value : string;
  inline : bool;
}.

(** [discord.Embed]. *)
Record Embed := {
  title : option string;
  description : option string;
  color : option Z;
  timestamp : option Z;
  footer : option string;
  author : option string;
  fields : list EmbedField;
}.

(** [discord.SelectOption]; [option_description] is its [description]. *)
Record SelectOption := {
  label : string;
  value : string;
  option_description : option string;
}.

(** Python list objects live in the heap and are named by their address. *)
Definition loc := nat.

(** The [Dropdown] control.  [options] is the list object given to
    [discord.ui.Select.__init__], which keeps that object and does not copy
    it; [values] is filled by the library when the user selects. *)
Record Dropdown := {
  dropdown_bot : Bot;
  placeholder : string;
  min_values : Z;
  max_values : Z;
  options : loc;
  values : list string;
}.

Record DropdownView := {
  view_bot : Context;
  children : list Dropdown;
}.

(** A select menu as it goes over the wire: the content that the option
    list has when the message is sent. *)
Record SelectMenu := {
  menu_placeholder : string;
  menu_min_values : Z;
  menu_max_values : Z;
  menu_options : list SelectOption;
}.

(** The [view] argument of [edit_message]: left out, or [None]. *)
Inductive ViewArg := ViewMissing | ViewNone.

(** A message of the chat: its panel and its controls. *)
Record Message := {
  message_embed : option Embed;
  message_components : list SelectMenu;
}.

(** The interaction carries the message that the control sits on. *)
Record Interaction := { interaction_message : Message }.

(** ** Effects *)

Inductive Effect :=
| Send (embed : Embed) (components : list SelectMenu)
| EditMessage (embed : Embed) (view : ViewArg).

(** [commands.CommandError] and its subclasses, and every other exception. *)
Inductive PyExn :=
| CommandError (cls : string)
| OtherException (cls : string).

Inductive PyResult (A : Type) :=
| Ret (a : A)
| Raise (e : PyExn).
Arguments Ret {A} a.
Arguments Raise {A} e.

Record World := {
  heap : gmap loc (list SelectOption);
  clock : Z;
  log : list Effect;
}.

Definition M (A : Type) : Type := World → PyResult A * World.

#[global] Instance M_ret : MRet M := λ A a w, (Ret a, w).

#[global] Instance M_bind : MBind M := λ A B f m w,
  match m w with
  | (Ret a, w') => f a w'
  | (Raise e, w') => (Raise e, w')
  end.

Definition raise {A} (e : PyExn) : M A := λ w, (Raise e, w).

(** [await] of a host coroutine whose outcome is known. *)
Definition await {A} (r : PyResult A) : M A := λ w, (r, w).

(** [with contextlib.suppress(commands.CommandError): body], where [x] is
    the variable that the body assigns and [x0] its value before the block. *)
Definition suppress_CommandError {A} (x0 : A) (body : M A) : M A := λ w,
  match body w with
  | (Raise (CommandError _), w') => (Ret x0, w')
  | r => r
  end.

(** [discord.utils.utcnow()]. *)
Definition utcnow : M Z := λ w, (Ret (clock w), w).

(** The world after one more effect. *)
Definition log_append (w : World) (e : Effect) : World :=
  {| heap := heap w; clock := clock w; log := log w ++ [e] |}.

Definition emit (e : Effect) : M () := λ w, (Ret (), log_append w e).

(** [[]]: a fresh, empty list object. *)
Definition new_list : M loc := λ w,
  let l := fresh (dom (heap w)) in
  (Ret l, {| heap := <[l := []]> (heap w); clock := clock w; log := log w |}).

(** [l.append(o)]. *)
Definition list_append (l : loc) (o : SelectOption) : M () := λ w,
  (Ret (), {| heap := alter (λ os, os ++ [o]) l (heap w);
              clock := clock w; log := log w |}).

(** The content of a list object. *)
Definition deref (w : World) (l : loc) : list SelectOption :=
  default [] (heap w !! l).

(** The options that a [Select] control holds in world [w]. *)
Definition select_options (w : World) (d : Dropdown) : list SelectOption :=
  deref w (options d).

(** [view.to_components()]: the controls are serialised when the message is
    sent, the option list is read then. *)
Definition to_components (w : World) (view : option DropdownView)
  : list SelectMenu :=
  match view with
  | Some v =>
      (λ d, {| menu_placeholder := placeholder d;
               menu_min_values := min_values d;
               menu_max_values := max_values d;
               menu_options := select_options w d |}) <$> children v
  | None => []
  end.

(** What an edit does to the message: the panel is replaced; the controls
    stay when [view] is left out and go when it is [None]. *)
Definition apply_edit (msg : Message) (embed : Embed) (view : ViewArg)
  : Message :=
  {| message_embed := Some embed;
     message_components :=
       match view with
       | ViewMissing => message_components msg
       | ViewNone => []
       end |}.

(** ** Embeds *)

Definition blurple : Z := 0x5865F2.

Definition footer_text : string :=
  "Use help [command] or help [category] for more information | <> is required | [] is optional".

(** [discord.Embed(title=, description=, color=)]. *)
Definition Embed_init (title description : option string) (color : option Z)
  : Embed :=
  {| title := title; description := description; color := color;
     timestamp := None; footer := None; author := None; fields := [] |}.

Definition set_footer (self : Embed) (text : string) : Embed :=
  {| title := title self; description := description self;
     color := color self; timestamp := timestamp self;
     footer := Some text; author := author self; fields := fields self |}.

Definition set_author (self : Embed) (name : string) : Embed :=
  {| title := title self; description := description self;
     color := color self; timestamp := timestamp self;
     footer := footer self; author := Some name; fields := fields self |}.

Definition set_timestamp (self : Embed) (t : Z) : Embed :=
  {| title := title self; description := description self;
     color := color self; timestamp := Some t;
     footer := footer self; author := author self; fields := fields self |}.

Definition set_color (self : Embed) (c : Z) : Embed :=
  {| title := title self; description := description self;
     color := Some c; timestamp := timestamp self;
     footer := footer self; author := author self; fields := fields self |}.

(** [embed.add_field(name=, value=, inline=)]. *)
Definition add_field (self : Embed) (name value : string) (inline : bool)
  : Embed :=
  {| title := title self; description := description self;
     color := color self; timestamp := timestamp self;
     footer := footer self; author := author self;
     fields := fields self ++
       [{| field_name := name; field_value := value; inline := inline |}] |}.

(** [HelpEmbed(title=, description=)]. *)
Definition HelpEmbed (title description : option string) : M Embed :=
  now ← utcnow;
  let self := Embed_init title description None in
  let self := set_timestamp self now in
  let text := footer_text in
  let self := set_footer self text in
  mret (set_color self blurple).

(** [SelectOption(label=, value=)]. *)
Definition SelectOption_init (label value : string) : SelectOption :=
  {| label := label; value := value; option_description := None |}.

(** ** The host's help-command contract

    What [MyHelp] inherits from [commands.HelpCommand] and calls: the
    invocation context, the permission filter [self.filter_commands], the
    signature of a command and the permission predicate
    [command.can_run(self.context)].  The filter and the predicate are
    awaited: each returns or raises. *)
Class HelpCommand := {
  context : Context;
  filter_commands : list Command → PyResult (list Command);
  get_command_signature : Command → string;
  can_run : Command → PyResult bool;
}.

(** [HelpCommand.filter_commands] as the host library provides it when it is
    not overridden ([show_hidden] false, [verify_checks] true): hidden
    commands are dropped, the permission predicate is asked for each of the
    others in turn, a [CommandError] of it counts as "no", and an exception
    of another class leaves the filter. *)
Fixpoint default_filter_commands (can_run : Command → PyResult bool)
    (commands : list Command) : PyResult (list Command) :=
  match commands with
  | [] => Ret []
  | cmd :: rest =>
      if hidden cmd then default_filter_commands can_run rest
      else
        match can_run cmd with
        | Ret valid =>
            match default_filter_commands can_run rest with
            | Ret ret => Ret (if valid then cmd :: ret else ret)
            | Raise e => Raise e
            end
        | Raise (CommandError _) => default_filter_commands can_run rest
        | Raise (OtherException cls) => Raise (OtherException cls)
        end
  end.

(** ** [Dropdown] and [DropdownView] *)

(** [Dropdown.__init__(options, ctx)]. *)
Definition Dropdown_init (options : loc) (ctx : Context) : Dropdown :=
  {| dropdown_bot := bot ctx;
     placeholder := "Select a category";
     min_values := 1;
     max_values := 1;
     options := options;
     values := [] |}.

(** [DropdownView.__init__(options, ctx)]. *)
Definition DropdownView_init (options : loc) (ctx : Context) : DropdownView :=
  let self_bot := ctx in
  {| view_bot := self_bot; children := [Dropdown_init options self_bot] |}.

(** [interaction.response.edit_message(embed=, view=)]. *)
Definition edit_message (interaction : Interaction) (embed : Embed)
    (view : ViewArg) : M () :=
  emit (EditMessage embed view).

(** The loop of [get_help] over [get_commands()]. *)
Fixpoint get_help_fields (emb : Embed) (cmds : list Command) : Embed :=
  match cmds with
  | [] => emb
  | command :: rest =>
      if negb (hidden command)
      then get_help_fields
             (add_field emb ("`" +:+ name command +:+ "`")
                (py_str (help command)) true) rest
      else get_help_fields emb rest
  end.

(** [get_help(self, interaction, CogToPassAlong)]. *)
Definition get_help (self : Dropdown) (interaction : Interaction)
    (CogToPassAlong : string) : M () :=
  match cogs (dropdown_bot self) !! CogToPassAlong with
  | None => raise (OtherException "KeyError")
  | Some c =>
      let emb := Embed_init (Some (CogToPassAlong +:+ " - Commands"))
                   (cog_doc c) (Some blurple) in
      let emb := set_author emb "Help System" in
      match cogs (dropdown_bot self) !! CogToPassAlong with
      | None => raise (OtherException "AttributeError")
      | Some c' =>
          let emb := get_help_fields emb (get_commands c') in
          edit_message interaction emb ViewMissing
      end
  end.

(** The loop of [callback] over the names of the registered cogs; the
    result tells whether the loop returned from [callback]. *)
Fixpoint callback_loop (self : Dropdown) (interaction : Interaction)
    (label : string) (names : list string) : M bool :=
  match names with
  | [] => mret false
  | cog :: rest =>
      if decide (label = cog)
      then get_help self interaction cog;; mret true
      else callback_loop self interaction label rest
  end.

(** [Dropdown.callback(interaction)]. *)
Definition callback (self : Dropdown) (interaction : Interaction) : M () :=
  match values self with
  | [] => raise (OtherException "IndexError")
  | label :: _ =>
      returned ← callback_loop self interaction label
                   (map_to_list (cogs (dropdown_bot self))).*1;
      if (returned : bool) then mret ()
      else if decide (label = "Close") then
        let embede := Embed_init
                        (Some (user_name (dropdown_bot self) +:+ " Help"))
                        (Some "") (Some blurple) in
        let embede := set_footer embede footer_text in
        edit_message interaction embede ViewNone
      else mret ()
  end.

(** ** [MyHelp] *)

Section MyHelp.
Context `{HelpCommand}.

(** [MyHelp.send(embed=, view=)]. *)
Definition send (embed : Embed) (view : option DropdownView) : M () := λ w,
  emit (Send embed (to_components w view)) w.

(** The loop of [send_bot_help] over [mapping.items()]. *)
Fixpoint send_bot_help_loop (myoptions : loc)
    (items : list (option Cog * list Command)) (usable : Z) : M Z :=
  match items with
  | [] => mret usable
  | (cog, commands) :: rest =>
      filtered_commands ← await (filter_commands commands);
      if py_truthy filtered_commands then
        let amount_commands := Z.of_nat (length filtered_commands) in
        let usable := usable + amount_commands in
        let '(name, description) :=
          match cog with
          | Some cog =>
              (qualified_name cog,
               py_or (Some (cog_description cog)) "No description")
          | None => ("No Category", "Commands with no category")
          end in
        list_append myoptions (SelectOption_init name name);;
        send_bot_help_loop myoptions rest usable
      else send_bot_help_loop myoptions rest usable
  end.

(** [send_bot_help] up to the construction of the view (lines 62-66). *)
Definition send_bot_help_setup : M (Embed * loc * DropdownView) :=
  let ctx := context in
  embed ← HelpEmbed (Some (me_display_name ctx +:+ " Help")) None;
  myoptions ← new_list;
  let view := DropdownView_init myoptions ctx in
  mret (embed, myoptions, view).

(** [send_bot_help] after the construction of the view (lines 68-81). *)
Definition send_bot_help_fill (mapping : list (option Cog * list Command))
    (s : Embed * loc * DropdownView) : M DropdownView :=
  let '(embed, myoptions, view) := s in
  let usable := 0 in
  _ ← send_bot_help_loop myoptions mapping usable;
  list_append myoptions (SelectOption_init "Close" "Close");;
  send embed (Some view);;
  mret view.

(** [MyHelp.send_bot_help(mapping)]; the view is returned for the
    statements about it. *)
Definition send_bot_help (mapping : list (option Cog * list Command))
    : M DropdownView :=
  s ← send_bot_help_setup;
  send_bot_help_fill mapping s.

(** [MyHelp.send_command_help(command)]. *)
Definition send_command_help (command : Command) : M () :=
  let signature := get_command_signature command in
  embed ← HelpEmbed (Some signature)
            (Some (py_or (brief command) "No help found..."));
  let embed :=
    match cog command with
    | Some cog => add_field embed "Category" cog true
    | None => embed
    end in
  let can_run_0 := "No" in
  can_run_1 ← suppress_CommandError can_run_0
                (b ← await (can_run command);
                 mret (if (b : bool) then "Yes" else can_run_0));
  let embed := add_field embed "Usable" can_run_1 true in
  let embed :=
    match _buckets command with
    | Some buckets =>
        match _cooldown buckets with
        | Some cooldown =>
            add_field embed "Cooldown"
              (pretty (rate cooldown) +:+ " per " +:+
               format_0f (per cooldown) +:+ " seconds") true
        | None => embed
        end
    | None => embed
    end in
  send embed None.

(** The loop of [send_help_embed] over the filtered commands. *)
Fixpoint send_help_embed_fields (embed : Embed) (cmds : list Command)
    : Embed :=
  match cmds with
  | [] => embed
  | command :: rest =>
      send_help_embed_fields
        (add_field embed (get_command_signature command)
           (py_or (brief command) "No help found...") true) rest
  end.

(** [MyHelp.send_help_embed(title, description, commands)]. *)
Definition send_help_embed (title : string) (description : option string)
    (commands : list Command) : M () :=
  embed ← HelpEmbed (Some title)
            (Some (py_or description "No help found..."));
  filtered_commands ← await (filter_commands commands);
  let embed :=
    if py_truthy filtered_commands
    then send_help_embed_fields embed filtered_commands
    else embed in
  send embed None.

(** [MyHelp.send_group_help(group)]. *)
Definition send_group_help (group : Group) : M () :=
  let title := get_command_signature (group_command group) in
  send_help_embed title (help (group_command group)) (commands group).

(** [MyHelp.send_cog_help(cog)]. *)
Definition send_cog_help (cog : Cog) : M () :=
  let title := py_or (Some (qualified_name cog)) "No" in
  send_help_embed (title +:+ " Category") (Some (cog_description cog))
    (get_commands cog).

End MyHelp.

(** ** What the statements speak of *)

(** The name under which a category of the mapping is displayed. *)
Definition display_name (cog : option Cog) : string :=
  match cog with
  | Some c => qualified_name c
  | None => "No Category"
  end.

(** The category has at least one command visible to the invoker: the
    filter returns a list that is not empty. *)
Definition has_visible_command `{HelpCommand} (commands : list Command)
  : Prop :=
  match filter_commands commands with
  | Ret filtered => (0 < length filtered)%nat
  | Raise _ => False
  end.

#[global] Instance has_visible_command_dec `{HelpCommand} commands :
  Decision (has_visible_command commands).
Proof.
  unfold has_visible_command. destruct (filter_commands commands); apply _.
Defined.

(** The outcome of the loop for the exception that [appended_names]
    reports. *)
Definition loop_outcome {A} (exn : option PyExn) (a : A) : PyResult A :=
  match exn with
  | None => Ret a
  | Some e => Raise e
  end.

(** The filter of the host returns for every category of the mapping. *)
Definition filter_returns `{HelpCommand}
    (mapping : list (option Cog * list Command)) : Prop :=
  Forall (λ it, ∃ filtered, filter_commands it.2 = Ret filtered) mapping.

(** The display names for which the loop of [send_bot_help] appends an
    entry, in order, and the exception of the filter that ends the loop
    early, if there is one. *)
Fixpoint appended_names `{HelpCommand}
    (mapping : list (option Cog * list Command))
  : list string * option PyExn :=
  match mapping with
  | [] => ([], None)
  | (cog, commands) :: rest =>
      match filter_commands commands with
      | Raise e => ([], Some e)
      | Ret filtered =>
          ((if py_truthy filtered then [display_name cog] else []) ++
           (appended_names rest).1,
           (appended_names rest).2)
      end
  end.

(** The display names of the categories with a visible command, in the
    order of the mapping. *)
Definition visible_names `{HelpCommand}
    (mapping : list (option Cog * list Command)) : list string :=
  display_name <$> (filter (λ it, has_visible_command it.2) mapping).*1.

(** The cooldown policy attached to a command, if any. *)
Definition cooldown_policy (command : Command) : option Cooldown :=
  _buckets command ≫= _cooldown.

(** The fields of a panel that carry a given name. *)
Definition fields_named (n : string) (e : Embed) : list EmbedField :=
  filter (λ f, field_name f = n) (fields e).

(** The field that [get_help] shows for a command. *)
Definition get_help_field (command : Command) : EmbedField :=
  {| field_name := "`" +:+ name command +:+ "`";
     field_value := py_str (help command);
     inline := true |}.

(** The field that the dispatcher's list renderer shows for a command. *)
Definition help_embed_field `{HelpCommand} (command : Command) : EmbedField :=
  {| field_name := get_command_signature command;
     field_value := py_or (brief command) "No help found...";
     inline := true |}.

(** ** The panels and controls that the statements name *)

(** The entry that the loop appends for a display name. *)
Definition entry (n : string) : SelectOption := SelectOption_init n n.

(** The select menu that goes out with the given options. *)
Definition menu_of (os : list SelectOption) : SelectMenu :=
  {| menu_placeholder := "Select a category"; menu_min_values := 1;
     menu_max_values := 1; menu_options := os |}.

(** The options of the select menus of the messages sent so far. *)
Definition offered_options (w : World) : list SelectOption :=
  e ← log w;
  match e with
  | Send _ components => components ≫= menu_options
  | EditMessage _ _ => []
  end.

(** The panel that [get_help] builds for the cog [c] registered as [n]. *)
Definition category_panel (n : string) (c : Cog) : Embed :=
  {| title := Some (n +:+ " - Commands"); description := cog_doc c;
     color := Some blurple; timestamp := None; footer := None;
     author := Some "Help System";
     fields := get_help_field <$>
               filter (λ cmd, hidden cmd = false) (get_commands c) |}.

(** The panel that "Close" leaves behind. *)
Definition closed_panel (b : Bot) : Embed :=
  {| title := Some (user_name b +:+ " Help"); description := Some "";
     color := Some blurple; timestamp := None; footer := Some footer_text;
     author := None; fields := [] |}.

(** The value of the "Usable" field for an outcome of the permission
    predicate, or the exception that leaves the block. *)
Definition usable_answer (r : PyResult bool) : PyResult string :=
  match r with
  | Ret b => Ret (if b then "Yes" else "No")
  | Raise (CommandError _) => Ret "No"
  | Raise (OtherException cls) => Raise (OtherException cls)
  end.

Section Panels.
Context `{HelpCommand}.

(** The root panel: bot name and "Help", no body, the standing footer. *)
Definition root_panel (w : World) : Embed :=
  {| title := Some (me_display_name context +:+ " Help");
     description := None; color := Some blurple;
     timestamp := Some (clock w); footer := Some footer_text;
     author := None; fields := [] |}.

(** The panel of [send_help_embed] when the filter returns [filtered]. *)
Definition list_panel (w : World) (title : string)
    (description : option string) (filtered : list Command) : Embed :=
  {| title := Some title;
     description := Some (py_or description "No help found...");
     color := Some blurple; timestamp := Some (clock w);
     footer := Some footer_text; author := None;
     fields := help_embed_field <$> filtered |}.

(** The list renderer [m], called for [commands], sends one panel without
    controls, and the panel satisfies [P] for the commands that the filter
    returned, unless the filter raises: that exception leaves the renderer
    and nothing is sent. *)
Definition sends_list_panel (commands : list Command) (m : M ()) (w : World)
    (P : list Command → Embed → Prop) : Prop :=
  match filter_commands commands with
  | Ret filtered =>
      ∃ e, m w = (Ret (), log_append w (Send e [])) ∧ P filtered e
  | Raise exn => m w = (Raise exn, w)
  end.

(** The panel of [send_command_help] when "Usable" is answered [usable]. *)
Definition command_panel (w : World) (command : Command) (usable : string)
  : Embed :=
  {| title := Some (get_command_signature command);
     description := Some (py_or (brief command) "No help found...");
     color := Some blurple; timestamp := Some (clock w);
     footer := Some footer_text; author := None;
     fields :=
       match cog command with
       | Some c => [{| field_name := "Category"; field_value := c;
                       inline := true |}]
       | None => []
       end ++
       [{| field_name := "Usable"; field_value := usable; inline := true |}]
       ++
       match cooldown_policy command with
       | Some cd =>
           [{| field_name := "Cooldown";
               field_value := pretty (rate cd) +:+ " per " +:+
                              format_0f (per cd) +:+ " seconds";
               inline := true |}]
       | None => []
       end |}.

(** [send_command_help] sends one panel, and the panel satisfies [P],
    unless the permission predicate raises an exception that is no
    [CommandError]: that exception leaves [send_command_help] and nothing
    is sent. *)
Definition sends_command_panel (command : Command) (w : World)
    (P : Embed → Prop) : Prop :=
  match can_run command with
  | Raise (OtherException cls) =>
      send_command_help command w = (Raise (OtherException cls), w)
  | _ =>
      ∃ e, send_command_help command w = (Ret (), log_append w (Send e []))
           ∧ P e
  end.

End Panels.

(** ** A sample registry *)

Definition world0 : World := {| heap := ∅; clock := 1700000000; log := [] |}.

Definition roll : Command :=
  {| name := "roll"; brief := Some "Roll a die";
     help := Some "Rolls a die with the given number of sides.";
     hidden := false; cog := Some "Fun";
     _buckets := Some {| _cooldown := None |} |}.

Definition ban : Command :=
  {| name := "ban"; brief := Some "Ban a member"; help := None;
     hidden := true; cog := Some "Admin";
     _buckets := Some {| _cooldown := None |} |}.

(** A command without any help text. *)
Definition ping : Command :=
  {| name := "ping"; brief := None; help := None;
     hidden := false; cog := Some "Fun";
     _buckets := Some {| _cooldown := None |} |}.

(** The help command itself, which belongs to no cog. *)
Definition help_command : Command :=
  {| name := "help"; brief := None;
     help := Some "The help command for the bot";
     hidden := false; cog := None;
     _buckets := Some {| _cooldown := None |} |}.

(** 5.75 as a binary64 float: 23 * 2^48 * 2^-50. *)
Definition float_5_75 : spec_float := S754_finite false 6473924464345088 (-50).

(** A command limited to one use per 5.75 seconds. *)
Definition slow : Command :=
  {| name := "slow"; brief := Some "Rarely"; help := None;
     hidden := false; cog := None;
     _buckets := Some {| _cooldown :=
                           Some {| rate := 1; per := float_5_75 |} |} |}.

Definition Fun : Cog :=
  {| qualified_name := "Fun"; cog_description := "Games";
     cog_doc := Some "Games"; get_commands := [roll; ping] |}.

Definition Admin : Cog :=
  {| qualified_name := "Admin"; cog_description := "";
     cog_doc := None; get_commands := [ban] |}.

(** A cog whose name is the label of the closing entry. *)
Definition Close : Cog :=
  {| qualified_name := "Close"; cog_description := "Close things";
     cog_doc := Some "Close things"; get_commands := [roll] |}.

Definition sample_bot : Bot :=
  {| cogs := <["Fun" := Fun]> (<["Admin" := Admin]> ∅);
     user_name := "Connie" |}.

(** A cog of the same name whose only command is hidden. *)
Definition hidden_Close : Cog :=
  {| qualified_name := "Close"; cog_description := "Close things";
     cog_doc := Some "Close things"; get_commands := [ban] |}.

Definition close_bot : Bot :=
  {| cogs := <["Close" := hidden_Close]> ∅; user_name := "Connie" |}.

Definition sample_context : Context :=
  {| bot := sample_bot; me_display_name := "Connie" |}.

(** A host with the filter of the library, for an invoker who may run
    everything: the filter returns the commands that are not hidden. *)
Definition sample_help : HelpCommand :=
  {| context := sample_context;
     filter_commands := default_filter_commands (λ _, Ret true);
     get_command_signature := λ c, "!" +:+ name c;
     can_run := λ _, Ret true |}.

(** The same host, with a permission predicate that fails with an error
    that is no [CommandError]: the filter fails with it as well, on every
    list with a command that is not hidden. *)
Definition failing_help : HelpCommand :=
  {| context := sample_context;
     filter_commands := default_filter_commands (λ _, Raise (OtherException "AttributeError"));
     get_command_signature := λ c, "!" +:+ name c;
     can_run := λ _, Raise (OtherException "AttributeError") |}.

(** The same host, for an invoker who lacks the permission: the filter
    returns no command. *)
Definition denying_help : HelpCommand :=
  {| context := sample_context;
     filter_commands := default_filter_commands (λ _, Raise (CommandError "MissingPermissions"));
     get_command_signature := λ c, "!" +:+ name c;
     can_run := λ _, Raise (CommandError "MissingPermissions") |}.

Definition sample_mapping : list (option Cog * list Command) :=
  [(Some Fun, [roll; ping]); (Some Admin, [ban]); (None, [help_command])].

Definition close_mapping : list (option Cog * list Command) :=
  [(Some Close, [roll])].

(** The message that carries the selector. *)
Definition root_message : Message :=
  {| message_embed := None;
     message_components :=
       [{| menu_placeholder := "Select a category";
           menu_min_values := 1; menu_max_values := 1;
           menu_options := [SelectOption_init "Close" "Close"] |}] |}.

Definition sample_interaction : Interaction :=
  {| interaction_message := root_message |}.

(** The selector of [b] after the user has picked [label]. *)
Definition selected (b : Bot) (label : string) : Dropdown :=
  {| dropdown_bot := b; placeholder := "Select a category";
     min_values := 1; max_values := 1; options := 0%nat;
     values := [label] |}.

(** ** The selector in use *)

(** The control after the library has stored the values of the options
    that the user picked. *)
Definition with_values (d : Dropdown) (vs : list string) : Dropdown :=
  {| dropdown_bot := dropdown_bot d; placeholder := placeholder d;
     min_values := min_values d; max_values := max_values d;
     options := options d; values := vs |}.

(** What one logged effect does to the message that carries the selector:
    an edit changes it, a message sent elsewhere does not. *)
Definition apply_effect (msg : Message) (e : Effect) : Message :=
  match e with
  | EditMessage embed view => apply_edit msg embed view
  | Send _ _ => msg
  end.

(** The message after the user has picked [label] on it: [callback] runs
    for that choice and its effects are applied to the message. *)
Definition pick (b : Bot) (msg : Message) (label : string) : Message :=
  foldl apply_effect msg
    (log (callback (selected b label) {| interaction_message := msg |}
            world0).2).

(** The look that [HelpEmbed] gives a panel built in world [w]. *)
Definition help_embed_look (w : World) (e : Embed) : Prop :=
  timestamp e = Some (clock w) ∧ footer e = Some footer_text ∧
  color e = Some blurple ∧ author e = None.

(** 5.0 as a binary64 float: 5 * 2^50 * 2^-50. *)
Definition float_5_0 : spec_float := S754_finite false 5629499534213120 (-50).

(** A command limited to one use per 5 seconds. *)
Definition timed : Command :=
  {| name := "timed"; brief := None; help := None;
     hidden := false; cog := Some "Fun";
     _buckets := Some {| _cooldown :=
                           Some {| rate := 1; per := float_5_0 |} |} |}.

(** * Properties *)

(** Unfolds the monad down to functions on worlds. *)
Ltac unfold_M :=
  unfold mbind, M_bind, mret, M_ret, raise, await, emit, utcnow,
    edit_message, send in *.

(** ** The root panel and its selector *)

Section RootHelp.
Context `{HelpCommand}.

Lemma py_truthy_visible (commands filtered : list Command) :
  filter_commands commands = Ret filtered →
  py_truthy filtered = true ↔ has_visible_command commands.
Proof.
  intros Hf. unfold has_visible_command. rewrite Hf.
  destruct filtered; simpl; split; (lia || done).
Qed.

Lemma visible_names_cons_true cog commands filtered rest :
  filter_commands commands = Ret filtered →
  py_truthy filtered = true →
  visible_names ((cog, commands) :: rest) =
  display_name cog :: visible_names rest.
Proof.
  intros Hf Hv. unfold visible_names.
  rewrite filter_cons_True; [done |]. by apply (py_truthy_visible _ filtered).
Qed.

Lemma visible_names_cons_false cog commands rest :
  ¬ has_visible_command commands →
  visible_names ((cog, commands) :: rest) = visible_names rest.
Proof.
  intros Hv. unfold visible_names. by rewrite filter_cons_False.
Qed.

(** What the display names are: the names of exactly the categories of
    the mapping that have a visible command. *)
Lemma elem_of_visible_names mapping n :
  n ∈ visible_names mapping ↔
  ∃ cog commands, (cog, commands) ∈ mapping ∧
    has_visible_command commands ∧ n = display_name cog.
Proof.
  unfold visible_names. rewrite list_elem_of_fmap. split.
  - intros (cog & -> & Hin). apply list_elem_of_fmap in Hin.
    destruct Hin as ([cog' commands] & -> & Hin).
    apply list_elem_of_filter in Hin as [Hv Hin]. eauto.
  - intros (cog & commands & Hin & Hv & ->). exists cog. split; [done |].
    apply list_elem_of_fmap. exists (cog, commands). split; [done |].
    by apply list_elem_of_filter.
Qed.

(** When the filter returns for every category, the loop runs to its end
    and appends the names of the categories with a visible command. *)
Lemma appended_names_filter_returns mapping :
  filter_returns mapping →
  appended_names mapping = (visible_names mapping, None).
Proof.
  induction 1 as [| [cog commands] rest [filtered Hf] _ IH]; [done |].
  simpl in *. rewrite Hf, IH. simpl. f_equal.
  destruct (py_truthy filtered) eqn:Hv.
  - by rewrite (visible_names_cons_true _ _ filtered).
  - rewrite visible_names_cons_false; [done |].
    rewrite <- (py_truthy_visible _ filtered) by done. congruence.
Qed.

(** The loop stops at the first category on which the filter raises. *)
Lemma appended_names_filter_raises pre cog commands post exn :
  filter_returns pre →
  filter_commands commands = Raise exn →
  appended_names (pre ++ (cog, commands) :: post) =
  (visible_names pre, Some exn).
Proof.
  intros Hpre Hf. induction Hpre as [| [cog' commands'] rest [filtered Hf'] _ IH].
  - simpl. by rewrite Hf.
  - simpl in *. rewrite Hf', IH. simpl. f_equal.
    destruct (py_truthy filtered) eqn:Hv.
    + by rewrite (visible_names_cons_true _ _ filtered).
    + rewrite visible_names_cons_false; [done |].
      rewrite <- (py_truthy_visible _ filtered) by done. congruence.
Qed.

(** Every appended name is the display name of a category of the mapping. *)
Lemma elem_of_appended_names mapping n :
  n ∈ (appended_names mapping).1 →
  ∃ cog commands, (cog, commands) ∈ mapping ∧ n = display_name cog.
Proof.
  induction mapping as [| [cog commands] rest IH]; simpl.
  - by intros ?%not_elem_of_nil.
  - destruct (filter_commands commands) as [filtered | exn]; simpl.
    + intros [Hn | Hn]%elem_of_app.
      * destruct (py_truthy filtered); [| by apply not_elem_of_nil in Hn].
        apply list_elem_of_singleton in Hn as ->.
        exists cog, commands. split; [left | done].
      * destruct (IH Hn) as (cog' & commands' & Hin & ->).
        exists cog', commands'. split; [by right | done].
    + by intros ?%not_elem_of_nil.
Qed.

(** The loop appends one entry per name of [appended_names] to the list
    object and touches nothing else; it raises what the filter raises. *)
Lemma send_bot_help_loop_spec mapping : ∀ l usable w os,
  heap w !! l = Some os →
  ∃ usable',
    send_bot_help_loop l mapping usable w =
    (loop_outcome (appended_names mapping).2 usable',
     {| heap := <[l := os ++ (entry <$> (appended_names mapping).1)]> (heap w);
        clock := clock w; log := log w |}).
Proof.
  induction mapping as [| [cog commands] rest IH]; intros l usable w os Hl.
  - exists usable. simpl. unfold_M. rewrite app_nil_r, insert_id by done.
    by destruct w.
  - simpl. unfold mbind at 1. unfold M_bind, await.
    destruct (filter_commands commands) as [filtered | exn] eqn:Hf.
    + destruct (py_truthy filtered) eqn:Hv; cbn [fst snd].
      * set (u := usable + _).
        set (w1 := {| heap := alter (λ os0, os0 ++ [entry (display_name cog)])
                                l (heap w);
                      clock := clock w; log := log w |}).
        destruct (IH l u w1 (os ++ [entry (display_name cog)])) as [u' Hu'].
        { simpl. by rewrite lookup_alter_eq, Hl. }
        exists u'.
        assert (Hstep : ∀ name,
          name = display_name cog →
          (list_append l (SelectOption_init name name);;
           send_bot_help_loop l rest u) w =
          (loop_outcome (appended_names rest).2 u',
           {| heap := <[l := os ++ (entry <$>
                             ([display_name cog] ++ (appended_names rest).1))]>
                        (heap w);
              clock := clock w; log := log w |})).
        { intros name ->. unfold_M. unfold list_append.
          fold (entry (display_name cog)). subst w1.
          rewrite Hu'. simpl.
          rewrite insert_alter_eq, <- app_assoc.
          by destruct (appended_names rest).2. }
        destruct cog as [c |]; simpl; by apply Hstep.
      * simpl. by apply IH.
    + exists usable. simpl. rewrite app_nil_r, insert_id by done.
      by destruct w.
Qed.

Lemma send_bot_help_setup_run w :
  let l := fresh (dom (heap w)) in
  send_bot_help_setup w =
  (Ret (root_panel w, l, DropdownView_init l context),
   {| heap := <[l := []]> (heap w); clock := clock w; log := log w |}).
Proof. reflexivity. Qed.

(** The second half of [send_bot_help]: with the loop completed, "Close"
    is appended and the message goes out; with the filter raising, the
    entries appended so far stay in the list and nothing is sent. *)
Lemma send_bot_help_fill_run mapping embed l ctx w os :
  heap w !! l = Some os →
  send_bot_help_fill mapping (embed, l, DropdownView_init l ctx) w =
  match (appended_names mapping).2 with
  | None =>
      let os' := os ++ (entry <$> (appended_names mapping).1) ++
                 [entry "Close"] in
      (Ret (DropdownView_init l ctx),
       {| heap := <[l := os']> (heap w); clock := clock w;
          log := log w ++ [Send embed [menu_of os']] |})
  | Some exn =>
      (Raise exn,
       {| heap := <[l := os ++ (entry <$> (appended_names mapping).1)]> (heap w);
          clock := clock w; log := log w |})
  end.
Proof.
  intros Hl. unfold send_bot_help_fill.
  destruct (send_bot_help_loop_spec mapping l 0 w os Hl) as [u Hu].
  unfold mbind at 1. unfold M_bind. rewrite Hu.
  destruct (appended_names mapping).2 as [exn |]; simpl; [done |].
  unfold_M. unfold list_append, log_append, to_components,
    select_options, deref. simpl.
  rewrite alter_insert_eq, lookup_insert_eq. simpl.
  by rewrite <- app_assoc.
Qed.

Lemma send_bot_help_run mapping w :
  let l := fresh (dom (heap w)) in
  send_bot_help mapping w =
  match (appended_names mapping).2 with
  | None =>
      let os := (entry <$> (appended_names mapping).1) ++ [entry "Close"] in
      (Ret (DropdownView_init l context),
       {| heap := <[l := os]> (heap w); clock := clock w;
          log := log w ++ [Send (root_panel w) [menu_of os]] |})
  | Some exn =>
      (Raise exn,
       {| heap := <[l := entry <$> (appended_names mapping).1]> (heap w);
          clock := clock w; log := log w |})
  end.
Proof.
  intros l. unfold send_bot_help. unfold mbind at 1. unfold M_bind.
  rewrite send_bot_help_setup_run. fold l.
  rewrite (send_bot_help_fill_run mapping _ l context _ [])
    by (simpl; apply lookup_insert_eq).
  destruct (appended_names mapping).2; simpl; by rewrite insert_insert_eq.
Qed.

(** The run of [send_bot_help] when the filter returns for every category. *)
Lemma send_bot_help_returns mapping w :
  filter_returns mapping →
  let l := fresh (dom (heap w)) in
  let os := (entry <$> visible_names mapping) ++ [entry "Close"] in
  send_bot_help mapping w =
  (Ret (DropdownView_init l context),
   {| heap := <[l := os]> (heap w); clock := clock w;
      log := log w ++ [Send (root_panel w) [menu_of os]] |}).
Proof.
  intros Hret. rewrite send_bot_help_run.
  by rewrite (appended_names_filter_returns _ Hret).
Qed.
End RootHelp.

(** C1 (as amended).  For every mapping on whose categories the filter of
    the host returns, and whose visible categories have pairwise distinct
    display names, none of them "Close", the selector sent with the root
    panel offers exactly the display names of the categories with a command
    visible to the invoker, followed by "Close": no label twice, "Close"
    last. *)
Theorem root_selector_labels `{HelpCommand}
    (mapping : list (option Cog * list Command)) (w : World) :
  filter_returns mapping →
  NoDup (visible_names mapping) →
  "Close" ∉ visible_names mapping →
  ∃ embed menu view w',
    send_bot_help mapping w = (Ret view, w') ∧
    log w' = log w ++ [Send embed [menu]] ∧
    label <$> menu_options menu = visible_names mapping ++ ["Close"] ∧
    (∀ n, n ∈ label <$> menu_options menu ↔
          n = "Close" ∨
          ∃ cog commands, (cog, commands) ∈ mapping ∧
            has_visible_command commands ∧ n = display_name cog) ∧
    NoDup (label <$> menu_options menu) ∧
    last (label <$> menu_options menu) = Some "Close".
Proof.
  intros Hret Hnodup Hclose.
  eexists _, _, _, _. split; [by apply send_bot_help_returns |].
  cbn [log menu_of menu_options].
  assert (Hlabels : label <$> (entry <$> visible_names mapping) ++ [entry "Close"]
                    = visible_names mapping ++ ["Close"]).
  { rewrite fmap_app, <- list_fmap_compose. simpl. f_equal.
    by rewrite <- (list_fmap_id (visible_names mapping)) at 2. }
  split; [reflexivity |]. cbn [menu_of menu_options]. rewrite Hlabels.
  split_and!; [done | | | apply last_snoc].
  - intros n. rewrite elem_of_app, list_elem_of_singleton, elem_of_visible_names.
    tauto.
  - apply NoDup_app. split_and!; [done | | apply NoDup_singleton].
    intros n Hn ->%list_elem_of_singleton. done.
Qed.

Lemma sample_filter_returns : filter_returns (H:=sample_help) sample_mapping.
Proof. repeat constructor; eexists; vm_compute; reflexivity. Qed.

Lemma root_selector_labels_witness :
  (filter_returns (H:=sample_help) sample_mapping ∧
   NoDup (visible_names (H:=sample_help) sample_mapping) ∧
   "Close" ∉ visible_names (H:=sample_help) sample_mapping) ∧
  ∃ embed menu view w',
    send_bot_help (H:=sample_help) sample_mapping world0 = (Ret view, w') ∧
    log w' = log world0 ++ [Send embed [menu]] ∧
    label <$> menu_options menu =
      visible_names (H:=sample_help) sample_mapping ++ ["Close"] ∧
    (∀ n, n ∈ label <$> menu_options menu ↔
          n = "Close" ∨
          ∃ cog commands, (cog, commands) ∈ sample_mapping ∧
            has_visible_command (H:=sample_help) commands ∧
            n = display_name cog) ∧
    NoDup (label <$> menu_options menu) ∧
    last (label <$> menu_options menu) = Some "Close".
Proof.
  assert (Hr : filter_returns (H:=sample_help) sample_mapping).
  { repeat constructor; eexists; vm_compute; reflexivity. }
  assert (Hn : NoDup (visible_names (H:=sample_help) sample_mapping)).
  { apply (bool_decide_unpack _). vm_compute. exact I. }
  assert (Hc : "Close" ∉ visible_names (H:=sample_help) sample_mapping).
  { apply (bool_decide_unpack _). vm_compute. exact I. }
  split; [by split_and! |].
  exact (root_selector_labels (H:=sample_help) sample_mapping world0 Hr Hn Hc).
Defined.

(** C1 (as stated) fails: a cog named "Close" with a visible command puts
    the label "Close" twice into the selector. *)
Lemma root_selector_duplicate_Close :
  let w' := (send_bot_help (H:=sample_help) close_mapping world0).2 in
  label <$> offered_options w' = ["Close"; "Close"] ∧
  ¬ NoDup (label <$> offered_options w').
Proof.
  assert (Hl : label <$> offered_options
                 (send_bot_help (H:=sample_help) close_mapping world0).2
               = ["Close"; "Close"]) by (vm_compute; reflexivity).
  cbv zeta. rewrite Hl. split; [done |].
  intros Hd. apply NoDup_cons in Hd as [Hd _]. apply Hd. by left.
Qed.

(** With no visible category the selector offers only "Close". *)
Lemma root_selector_only_Close `{HelpCommand} mapping w :
  filter_returns mapping →
  visible_names mapping = [] →
  offered_options (send_bot_help mapping w).2 =
  offered_options w ++ [entry "Close"].
Proof.
  intros Hret Hv. rewrite send_bot_help_returns, Hv by done.
  unfold offered_options. simpl. rewrite bind_app. reflexivity.
Qed.

(** The example of the specification: "Fun" has a visible command, "Admin"
    only a hidden one. *)
Example root_selector_Fun_Close :
  label <$> offered_options
    (send_bot_help (H:=sample_help)
       [(Some Fun, [roll]); (Some Admin, [ban])] world0).2
  = ["Fun"; "Close"].
Proof. vm_compute. reflexivity. Qed.

(** C2 (as amended).  The view and its [Dropdown] are built while the
    option list is still empty, and the [Dropdown] holds that very list
    object, as [discord.ui.Select] keeps the list it is given: every entry
    that the loop appends afterwards is an option of the [Dropdown].  When
    the loop runs to its end these are the entries of the visible
    categories and "Close", and they go out with the message; when the
    filter raises, [send_bot_help] raises, nothing is sent, and the
    [Dropdown] holds the entries appended until then. *)
Theorem select_shares_option_list `{HelpCommand}
    (mapping : list (option Cog * list Command)) (w : World) :
  ∃ embed myoptions d w1,
    send_bot_help_setup w =
      (Ret (embed, myoptions, DropdownView_init myoptions context), w1) ∧
    children (DropdownView_init myoptions context) = [d] ∧
    options d = myoptions ∧
    select_options w1 d = [] ∧
    ∃ r w',
      send_bot_help_fill mapping
        (embed, myoptions, DropdownView_init myoptions context) w1 = (r, w') ∧
      send_bot_help mapping w = (r, w') ∧
      match (appended_names mapping).2 with
      | None =>
          r = Ret (DropdownView_init myoptions context) ∧
          select_options w' d =
            (entry <$> (appended_names mapping).1) ++ [entry "Close"] ∧
          log w' = log w ++ [Send embed [menu_of (select_options w' d)]]
      | Some exn =>
          r = Raise exn ∧
          select_options w' d = entry <$> (appended_names mapping).1 ∧
          log w' = log w
      end ∧
      (filter_returns mapping →
       (appended_names mapping).2 = None ∧
       (appended_names mapping).1 = visible_names mapping).
Proof.
  eexists _, _, _, _. split; [apply send_bot_help_setup_run |].
  split; [reflexivity |]. split; [reflexivity |].
  split; [unfold select_options, deref; simpl; by rewrite lookup_insert_eq |].
  exists (send_bot_help mapping w).1, (send_bot_help mapping w).2.
  split.
  { rewrite <- surjective_pairing. unfold send_bot_help at 1.
    unfold mbind at 1. unfold M_bind. by rewrite send_bot_help_setup_run. }
  split; [by rewrite <- surjective_pairing |].
  rewrite send_bot_help_run. split.
  - unfold select_options, deref.
    destruct (appended_names mapping).2; cbn [fst snd heap log options
      Dropdown_init]; rewrite lookup_insert_eq; simpl; done.
  - intros Hret. by rewrite (appended_names_filter_returns _ Hret).
Qed.

(** C2 (as stated) fails: the entry "Close", appended after the view was
    built, is in the option list that the [Select] was constructed with. *)
Lemma appended_entry_reaches_select :
  let r := send_bot_help (H:=sample_help) [] world0 in
  ∃ view d, r.1 = Ret view ∧ children view = [d] ∧
    select_options r.2 d = [SelectOption_init "Close" "Close"] ∧
    select_options r.2 d ≠ [].
Proof.
  cbv zeta.
  exists (DropdownView_init 0%nat sample_context),
         (Dropdown_init 0%nat sample_context).
  split; [vm_compute; reflexivity |].
  split; [reflexivity |].
  assert (Hs : select_options (send_bot_help (H:=sample_help) [] world0).2
                 (Dropdown_init 0%nat sample_context)
               = [SelectOption_init "Close" "Close"])
    by (vm_compute; reflexivity).
  split; [exact Hs | by rewrite Hs].
Qed.

(** C9: the entry of a visible category carries the label and the value,
    its description is left unset.  Here "Fun" has the description
    "Games". *)
Lemma root_entry_without_description :
  offered_options
    (send_bot_help (H:=sample_help) [(Some Fun, [roll; ping])] world0).2
  = [ {| label := "Fun"; value := "Fun"; option_description := None |};
      {| label := "Close"; value := "Close"; option_description := None |} ].
Proof. vm_compute. reflexivity. Qed.
(** ** The selector *)

Lemma get_help_fields_spec cmds : ∀ emb,
  get_help_fields emb cmds =
  {| title := title emb; description := description emb;
     color := color emb; timestamp := timestamp emb;
     footer := footer emb; author := author emb;
     fields := fields emb ++
       (get_help_field <$> filter (λ cmd, hidden cmd = false) cmds) |}.
Proof.
  induction cmds as [| command rest IH]; intros emb; simpl.
  - rewrite app_nil_r. by destruct emb.
  - destruct (hidden command) eqn:Hh; simpl; rewrite IH; simpl.
    + by rewrite filter_cons_False by congruence.
    + rewrite filter_cons_True by done. simpl. by rewrite <- app_assoc.
Qed.

Lemma get_help_run self interaction n c w :
  cogs (dropdown_bot self) !! n = Some c →
  get_help self interaction n w =
  (Ret (), log_append w (EditMessage (category_panel n c) ViewMissing)).
Proof.
  intros Hc. unfold get_help. rewrite Hc, get_help_fields_spec.
  reflexivity.
Qed.

Lemma elem_of_cog_names (m : gmap string Cog) (n : string) :
  n ∈ (map_to_list m).*1 ↔ is_Some (m !! n).
Proof.
  rewrite list_elem_of_fmap. split.
  - intros ([n' c] & -> & Hin). apply elem_of_map_to_list in Hin. by exists c.
  - intros [c Hc]. exists (n, c). split; [done |].
    by apply elem_of_map_to_list.
Qed.

(** The loop calls [get_help] for the label itself when a registered name
    equals it, and returns. *)
Lemma callback_loop_hit self interaction label names w :
  label ∈ names →
  callback_loop self interaction label names w =
  (get_help self interaction label;; mret true) w.
Proof.
  induction names as [| cog rest IH]; intros Hin.
  - by apply not_elem_of_nil in Hin.
  - simpl. destruct (decide (label = cog)) as [-> | Hne]; [done |].
    apply IH. apply elem_of_cons in Hin as [? | ?]; done.
Qed.

(** The loop falls through when no registered name equals the label. *)
Lemma callback_loop_miss self interaction label names w :
  label ∉ names →
  callback_loop self interaction label names w = (Ret false, w).
Proof.
  induction names as [| cog rest IH]; intros Hin; [done |].
  simpl. apply not_elem_of_cons in Hin as [Hne Hin].
  destruct (decide (label = cog)); [done |]. by apply IH.
Qed.

Lemma callback_registered self interaction label rest c w :
  values self = label :: rest →
  cogs (dropdown_bot self) !! label = Some c →
  callback self interaction w =
  (Ret (), log_append w (EditMessage (category_panel label c) ViewMissing)).
Proof.
  intros Hv Hc. unfold callback. rewrite Hv. unfold mbind at 1. unfold M_bind.
  rewrite callback_loop_hit by (apply elem_of_cog_names; eauto).
  unfold mbind, M_bind. by rewrite (get_help_run _ _ _ c).
Qed.

Lemma callback_Close self interaction rest w :
  values self = "Close" :: rest →
  cogs (dropdown_bot self) !! "Close" = None →
  callback self interaction w =
  (Ret (),
   log_append w (EditMessage (closed_panel (dropdown_bot self)) ViewNone)).
Proof.
  intros Hv Hc. unfold callback. rewrite Hv. unfold mbind, M_bind.
  rewrite callback_loop_miss; [done |].
  rewrite elem_of_cog_names, Hc. by intros [? ?].
Qed.

(** A label that names no registered cog and is not "Close" is ignored:
    nothing is edited, nothing is sent. *)
Lemma callback_unmatched self interaction label rest w :
  values self = label :: rest →
  cogs (dropdown_bot self) !! label = None →
  label ≠ "Close" →
  callback self interaction w = (Ret (), w).
Proof.
  intros Hv Hc Hne. unfold callback. rewrite Hv. unfold mbind, M_bind.
  rewrite callback_loop_miss.
  - by destruct (decide (label = "Close")).
  - rewrite elem_of_cog_names, Hc. by intros [? ?].
Qed.

(** ** The list renderer of the dispatcher *)

Section ListRenderer.
Context `{HelpCommand}.

Lemma send_help_embed_fields_spec cmds : ∀ embed,
  send_help_embed_fields embed cmds =
  {| title := title embed; description := description embed;
     color := color embed; timestamp := timestamp embed;
     footer := footer embed; author := author embed;
     fields := fields embed ++ (help_embed_field <$> cmds) |}.
Proof.
  induction cmds as [| command rest IH]; intros embed; simpl.
  - rewrite app_nil_r. by destruct embed.
  - rewrite IH. simpl. by rewrite <- app_assoc.
Qed.

(** [send_help_embed] sends its panel when the filter returns, and raises
    what the filter raises, before anything is sent. *)
Lemma send_help_embed_run title description commands w :
  send_help_embed title description commands w =
  match filter_commands commands with
  | Ret filtered =>
      (Ret (), log_append w (Send (list_panel w title description filtered) []))
  | Raise exn => (Raise exn, w)
  end.
Proof.
  unfold send_help_embed, list_panel. unfold_M. unfold HelpEmbed. unfold_M.
  simpl. destruct (filter_commands commands) as [[| c cs] | exn]; simpl.
  - reflexivity.
  - rewrite send_help_embed_fields_spec. reflexivity.
  - reflexivity.
Qed.

Lemma sends_list_panel_intro title description commands w
    (P : list Command → Embed → Prop) :
  (∀ filtered, filter_commands commands = Ret filtered →
     P filtered (list_panel w title description filtered)) →
  sends_list_panel commands (send_help_embed title description commands) w P.
Proof.
  intros HP. unfold sends_list_panel. rewrite send_help_embed_run.
  destruct (filter_commands commands) as [filtered | exn]; eauto.
Qed.

Lemma sends_group_panel_intro group w (P : list Command → Embed → Prop) :
  (∀ filtered, filter_commands (commands group) = Ret filtered →
     P filtered (list_panel w (get_command_signature (group_command group))
                   (help (group_command group)) filtered)) →
  sends_list_panel (commands group) (send_group_help group) w P.
Proof. apply sends_list_panel_intro. Qed.

Lemma sends_cog_panel_intro c w (P : list Command → Embed → Prop) :
  (∀ filtered, filter_commands (get_commands c) = Ret filtered →
     P filtered (list_panel w (py_or (Some (qualified_name c)) "No" +:+ " Category")
                   (Some (cog_description c)) filtered)) →
  sends_list_panel (get_commands c) (send_cog_help c) w P.
Proof. apply sends_list_panel_intro. Qed.
End ListRenderer.

Lemma fmap_get_help_field (cmds : list Command) :
  get_help_field <$> cmds =
  (λ cmd, {| field_name := "`" +:+ name cmd +:+ "`";
             field_value := match help cmd with
                            | Some body => body
                            | None => "None"
                            end;
             inline := true |}) <$> cmds.
Proof. reflexivity. Qed.

Lemma help_embed_field_value `{HelpCommand} (cmd : Command) :
  help_embed_field cmd =
  {| field_name := get_command_signature cmd;
     field_value := match brief cmd with
                    | Some (String a s) => String a s
                    | Some EmptyString | None => "No help found..."
                    end;
     inline := true |}.
Proof.
  unfold help_embed_field, py_or.
  destruct (brief cmd) as [[| a s] |]; [done | | done].
  by destruct (decide (String a s = "")).
Qed.

(** C10 (as amended).  The panel that [get_help] renders for a registered
    cog has one field per command of the cog whose [hidden] flag is false,
    and for no other; the value of a field is [str(command.help)]: the long
    help of the command, or "None" where it has none, without a fallback
    text; the description is the docstring of the cog as it is.  The
    permission filter plays no part.  Of the paths of the dispatcher, the
    group and the category panel list the commands that [filter_commands]
    returns, and fail where it raises; the command panel does not call the
    filter: it is the same whatever the filter of the host is. *)
Theorem get_help_shows_unhidden_commands `{HelpCommand}
    (self : Dropdown) (interaction : Interaction) (n : string) (c : Cog)
    (w : World) :
  cogs (dropdown_bot self) !! n = Some c →
  (∃ e,
     get_help self interaction n w =
       (Ret (), log_append w (EditMessage e ViewMissing)) ∧
     fields e =
       (λ cmd, {| field_name := "`" +:+ name cmd +:+ "`";
                  field_value := match help cmd with
                                 | Some body => body
                                 | None => "None"
                                 end;
                  inline := true |}) <$>
       filter (λ cmd, hidden cmd = false) (get_commands c) ∧
     description e = cog_doc c) ∧
  sends_list_panel (get_commands c) (send_cog_help c) w
    (λ filtered e,
       fields e =
         (λ cmd, {| field_name := get_command_signature cmd;
                    field_value := match brief cmd with
                                   | Some (String a s) => String a s
                                   | Some EmptyString | None =>
                                       "No help found..."
                                   end;
                    inline := true |}) <$> filtered) ∧
  (∀ group,
     sends_list_panel (commands group) (send_group_help group) w
       (λ filtered e,
          fields e =
            (λ cmd, {| field_name := get_command_signature cmd;
                       field_value := match brief cmd with
                                      | Some (String a s) => String a s
                                      | Some EmptyString | None =>
                                          "No help found..."
                                      end;
                       inline := true |}) <$> filtered)) ∧
  (∀ (other_filter : list Command → PyResult (list Command)) command,
     send_command_help
       (H:={| context := context; filter_commands := other_filter;
              get_command_signature := get_command_signature;
              can_run := can_run |}) command w =
     send_command_help command w).
Proof.
  intros Hc. split_and!.
  - eexists. split; [by apply get_help_run |].
    split; [apply fmap_get_help_field | reflexivity].
  - apply sends_cog_panel_intro. intros filtered _. cbn [list_panel fields].
    apply list_fmap_ext. intros _ cmd _. apply help_embed_field_value.
  - intros group. apply sends_group_panel_intro. intros filtered _.
    cbn [list_panel fields].
    apply list_fmap_ext. intros _ cmd _. apply help_embed_field_value.
  - reflexivity.
Qed.

Lemma get_help_shows_unhidden_commands_witness :
  cogs (dropdown_bot (selected sample_bot "Fun")) !! "Fun" = Some Fun ∧
  ((∃ e,
     get_help (selected sample_bot "Fun") sample_interaction "Fun" world0 =
       (Ret (), log_append world0 (EditMessage e ViewMissing)) ∧
     fields e =
       (λ cmd, {| field_name := "`" +:+ name cmd +:+ "`";
                  field_value := match help cmd with
                                 | Some body => body
                                 | None => "None"
                                 end;
                  inline := true |}) <$>
       filter (λ cmd, hidden cmd = false) (get_commands Fun) ∧
     description e = cog_doc Fun) ∧
  sends_list_panel (H:=sample_help) (get_commands Fun)
    (send_cog_help (H:=sample_help) Fun) world0
    (λ filtered e,
       fields e =
         (λ cmd, {| field_name :=
                      get_command_signature (HelpCommand:=sample_help) cmd;
                    field_value := match brief cmd with
                                   | Some (String a s) => String a s
                                   | Some EmptyString | None =>
                                       "No help found..."
                                   end;
                    inline := true |}) <$> filtered) ∧
  (∀ group,
     sends_list_panel (H:=sample_help) (commands group)
       (send_group_help (H:=sample_help) group) world0
       (λ filtered e,
          fields e =
            (λ cmd, {| field_name :=
                         get_command_signature (HelpCommand:=sample_help) cmd;
                       field_value := match brief cmd with
                                      | Some (String a s) => String a s
                                      | Some EmptyString | None =>
                                          "No help found..."
                                      end;
                       inline := true |}) <$> filtered)) ∧
  (∀ (other_filter : list Command → PyResult (list Command)) command,
     send_command_help
       (H:={| context := context (HelpCommand:=sample_help);
              filter_commands := other_filter;
              get_command_signature :=
                get_command_signature (HelpCommand:=sample_help);
              can_run := can_run (HelpCommand:=sample_help) |})
       command world0 =
     send_command_help (H:=sample_help) command world0)).
Proof.
  assert (Hc : cogs (dropdown_bot (selected sample_bot "Fun")) !! "Fun"
               = Some Fun) by (vm_compute; reflexivity).
  split; [exact Hc |].
  exact (get_help_shows_unhidden_commands (H:=sample_help)
           (selected sample_bot "Fun") sample_interaction "Fun" Fun world0 Hc).
Defined.

(** C10 (as stated) fails for the command path of the dispatcher: it does
    not apply the permission filter.  The filter returns nothing for the
    hidden command "ban", and [send_command_help] renders its panel all the
    same. *)
Lemma command_panel_ignores_filter :
  filter_commands (HelpCommand:=sample_help) [ban] = Ret [] ∧
  ∃ e,
    send_command_help (H:=sample_help) ban world0 =
      (Ret (), log_append world0 (Send e [])) ∧
    title e = Some "!ban" ∧ description e = Some "Ban a member".
Proof.
  split; [reflexivity |].
  eexists. split; [vm_compute; reflexivity |]. split; reflexivity.
Qed.

(** C3 (as amended).  Selecting a label that names a registered cog calls
    [get_help] for that very name: one edit, whose panel is titled with the
    name and " - Commands", described by the docstring of that cog, with one
    field per command of that cog that is not hidden, valued by its long
    help; the edit names no view, so the controls of the message stay. *)
Theorem selecting_category_renders_it
    (self : Dropdown) (interaction : Interaction) (label : string)
    (rest : list string) (c : Cog) (w : World) :
  values self = label :: rest →
  cogs (dropdown_bot self) !! label = Some c →
  ∃ e,
    callback self interaction w =
      (Ret (), log_append w (EditMessage e ViewMissing)) ∧
    get_help self interaction label w =
      (Ret (), log_append w (EditMessage e ViewMissing)) ∧
    title e = Some (label +:+ " - Commands") ∧
    description e = cog_doc c ∧
    fields e =
      get_help_field <$> filter (λ cmd, hidden cmd = false) (get_commands c) ∧
    message_components (apply_edit (interaction_message interaction) e ViewMissing)
      = message_components (interaction_message interaction).
Proof.
  intros Hv Hc. exists (category_panel label c).
  split; [by eapply callback_registered |].
  split; [by apply get_help_run |]. done.
Qed.

Lemma selecting_category_renders_it_witness :
  (values (selected sample_bot "Fun") = ["Fun"] ∧
   cogs (dropdown_bot (selected sample_bot "Fun")) !! "Fun" = Some Fun) ∧
  ∃ e,
    callback (selected sample_bot "Fun") sample_interaction world0 =
      (Ret (), log_append world0 (EditMessage e ViewMissing)) ∧
    get_help (selected sample_bot "Fun") sample_interaction "Fun" world0 =
      (Ret (), log_append world0 (EditMessage e ViewMissing)) ∧
    title e = Some ("Fun" +:+ " - Commands") ∧
    description e = cog_doc Fun ∧
    fields e =
      get_help_field <$>
      filter (λ cmd, hidden cmd = false) (get_commands Fun) ∧
    message_components
      (apply_edit (interaction_message sample_interaction) e ViewMissing)
      = message_components (interaction_message sample_interaction).
Proof.
  assert (Hv : values (selected sample_bot "Fun") = ["Fun"]) by reflexivity.
  assert (Hc : cogs (dropdown_bot (selected sample_bot "Fun")) !! "Fun"
               = Some Fun) by (vm_compute; reflexivity).
  split; [by split |].
  exact (selecting_category_renders_it (selected sample_bot "Fun")
           sample_interaction "Fun" [] Fun world0 Hv Hc).
Defined.

(** C3 (as stated) fails: for the label "Fun" the selector edits in a panel
    that is not the category panel of the dispatcher (the title, the names
    and the values of the fields differ), and the selector stays on the
    message. *)
Lemma selector_panel_differs_from_dispatcher :
  ∃ e e',
    callback (selected sample_bot "Fun") sample_interaction world0 =
      (Ret (), log_append world0 (EditMessage e ViewMissing)) ∧
    send_cog_help (H:=sample_help) Fun world0 =
      (Ret (), log_append world0 (Send e' [])) ∧
    title e = Some "Fun - Commands" ∧ title e' = Some "Fun Category" ∧
    field_value <$> fields e =
      ["Rolls a die with the given number of sides."; "None"] ∧
    field_value <$> fields e' = ["Roll a die"; "No help found..."] ∧
    message_components (apply_edit root_message e ViewMissing) ≠ [].
Proof.
  exists (category_panel "Fun" Fun),
    (list_panel (H:=sample_help) world0 "Fun Category" (Some "Games")
       [roll; ping]).
  split; [vm_compute; reflexivity |].
  split; [vm_compute; reflexivity |].
  split; [reflexivity |]. split; [reflexivity |].
  split; [vm_compute; reflexivity |].
  split; [vm_compute; reflexivity |]. done.
Qed.

(** When no registered cog is named "Close", selecting "Close" edits the
    message, whatever it showed, to the panel titled with the bot name and
    " Help", with an empty description and the standing footer, and removes
    its controls. *)
Lemma selecting_Close_closes
    (self : Dropdown) (interaction : Interaction) (rest : list string)
    (w : World) :
  values self = "Close" :: rest →
  cogs (dropdown_bot self) !! "Close" = None →
  ∃ e,
    callback self interaction w =
      (Ret (), log_append w (EditMessage e ViewNone)) ∧
    title e = Some (user_name (dropdown_bot self) +:+ " Help") ∧
    description e = Some "" ∧
    footer e = Some footer_text ∧
    fields e = [] ∧
    apply_edit (interaction_message interaction) e ViewNone =
      {| message_embed := Some e; message_components := [] |}.
Proof.
  intros Hv Hc. exists (closed_panel (dropdown_bot self)).
  split; [by eapply callback_Close |]. done.
Qed.

(** C7: a registered cog named "Close" takes the selection of "Close".
    Here the only command of that cog is hidden, so the root selector
    offers "Close" once; selecting it does not close the menu but renders
    the cog and leaves the controls on the message. *)
Lemma selecting_Close_renders_cog_Close :
  label <$> offered_options
    (send_bot_help (H:=sample_help) [(Some hidden_Close, [ban])] world0).2
  = ["Close"] ∧
  ∃ e,
    callback (selected close_bot "Close") sample_interaction world0 =
      (Ret (), log_append world0 (EditMessage e ViewMissing)) ∧
    title e = Some "Close - Commands" ∧
    description e = Some "Close things" ∧
    message_components (apply_edit root_message e ViewMissing) ≠ [].
Proof.
  split; [vm_compute; reflexivity |].
  exists (category_panel "Close" hidden_Close).
  split; [vm_compute; reflexivity |]. done.
Qed.

(** C8: the root panel of the sample registry offers "No Category", the
    category of the help command; selecting it edits nothing. *)
Lemma selecting_No_Category_edits_nothing :
  let w' := (send_bot_help (H:=sample_help) sample_mapping world0).2 in
  label <$> offered_options w' = ["Fun"; "No Category"; "Close"] ∧
  callback (selected sample_bot "No Category") sample_interaction w' =
    (Ret (), w').
Proof.
  cbv zeta. split; [vm_compute; reflexivity |].
  by apply (callback_unmatched _ _ "No Category" []).
Qed.

(** A selection that names a registered cog, or "Close" when no cog has
    that name, makes one edit and sends nothing. *)
Lemma selection_edits_once self interaction label rest w :
  values self = label :: rest →
  is_Some (cogs (dropdown_bot self) !! label) ∨ label = "Close" →
  ∃ e view,
    callback self interaction w = (Ret (), log_append w (EditMessage e view)).
Proof.
  intros Hv Hl.
  destruct (cogs (dropdown_bot self) !! label) as [c |] eqn:Hc.
  - eexists _, _. by eapply callback_registered.
  - destruct Hl as [[? ?] | ->]; [done |].
    eexists _, _. by eapply callback_Close.
Qed.

(** ** The command panel *)

Section CommandPanel.
Context `{HelpCommand}.

Lemma send_command_help_run command w :
  send_command_help command w =
  match usable_answer (can_run command) with
  | Ret usable => (Ret (), log_append w (Send (command_panel w command usable) []))
  | Raise e => (Raise e, w)
  end.
Proof.
  unfold send_command_help, command_panel, cooldown_policy, HelpEmbed,
    suppress_CommandError.
  unfold_M.
  destruct (can_run command) as [[|] | [cls | cls]],
    (cog command) as [c |],
    (_buckets command) as [[[cd |]] |]; reflexivity.
Qed.

Lemma sends_command_panel_intro command w (P : Embed → Prop) :
  (∀ usable, P (command_panel w command usable)) →
  sends_command_panel command w P.
Proof.
  intros HP. unfold sends_command_panel. rewrite send_command_help_run.
  destruct (can_run command) as [b | [cls | cls]]; simpl; eauto.
Qed.
End CommandPanel.

(** Rounding to the nearest integer, ties to even, is what
    [round_half_even] computes. *)
Lemma round_half_even_nearest (m : positive) (e : Z) :
  nearest_even m e (round_half_even m e).
Proof.
  unfold nearest_even, round_half_even.
  destruct (decide (0 ≤ e)) as [He | He]; [done |].
  cbv zeta. set (d := 2 ^ (- e)).
  assert (Hd : 0 < d) by (apply Z.pow_pos_nonneg; lia).
  pose proof (Z.div_mod (Z.pos m) d ltac:(lia)) as Hm.
  pose proof (Z.mod_pos_bound (Z.pos m) d Hd) as Hr.
  set (q := Z.pos m / d) in *. set (r := Z.pos m mod d) in *.
  destruct (Z.compare_spec (2 * r) d) as [Heq | Hlt | Hgt].
  - destruct (Z.even q) eqn:Hq.
    + split; [| done]. replace (Z.pos m - q * d) with r by lia. lia.
    + split.
      * replace (Z.pos m - (q + 1) * d) with (r - d) by lia. lia.
      * intros _. rewrite Z.add_1_r, Z.even_succ, <- Z.negb_even, Hq. done.
  - replace (Z.pos m - q * d) with r by lia. split; lia.
  - replace (Z.pos m - (q + 1) * d) with (r - d) by lia. split; lia.
Qed.

(** The fields of the command panel that carry a given name. *)
Lemma fields_named_command_panel `{HelpCommand} w command usable n :
  fields_named n (command_panel w command usable) =
  (if decide (n = "Category") then
     match cog command with
     | Some c => [{| field_name := "Category"; field_value := c;
                     inline := true |}]
     | None => []
     end
   else []) ++
  (if decide (n = "Usable") then
     [{| field_name := "Usable"; field_value := usable; inline := true |}]
   else []) ++
  (if decide (n = "Cooldown") then
     match cooldown_policy command with
     | Some cd =>
         [{| field_name := "Cooldown";
             field_value := pretty (rate cd) +:+ " per " +:+
                            format_0f (per cd) +:+ " seconds";
             inline := true |}]
     | None => []
     end
   else []).
Proof.
  unfold fields_named, command_panel. cbn [fields].
  rewrite !filter_app. f_equal; [| f_equal].
  - destruct (cog command); [| by destruct (decide _)].
    rewrite filter_cons, filter_nil. cbn [field_name].
    by destruct (decide (n = "Category")), (decide ("Category" = n)).
  - rewrite filter_cons, filter_nil. cbn [field_name].
    by destruct (decide (n = "Usable")), (decide ("Usable" = n)).
  - destruct (cooldown_policy command); [| by destruct (decide _)].
    rewrite filter_cons, filter_nil. cbn [field_name].
    by destruct (decide (n = "Cooldown")), (decide ("Cooldown" = n)).
Qed.

(** C6 (as amended).  The "Usable" field is "Yes" exactly when the
    permission predicate returns true; when it returns false or raises a
    [CommandError] the field is "No" and no error surfaces; an exception of
    another class is not caught: it leaves [send_command_help] and no panel
    is sent. *)
Theorem usable_field_follows_predicate `{HelpCommand}
    (command : Command) (w : World) :
  match can_run command with
  | Ret b =>
      ∃ e, send_command_help command w = (Ret (), log_append w (Send e [])) ∧
           fields_named "Usable" e =
             [{| field_name := "Usable";
                 field_value := if b then "Yes" else "No";
                 inline := true |}]
  | Raise (CommandError _) =>
      ∃ e, send_command_help command w = (Ret (), log_append w (Send e [])) ∧
           fields_named "Usable" e =
             [{| field_name := "Usable"; field_value := "No";
                 inline := true |}]
  | Raise (OtherException cls) =>
      send_command_help command w = (Raise (OtherException cls), w)
  end.
Proof.
  rewrite send_command_help_run.
  destruct (can_run command) as [b | [cls | cls]]; simpl; [| | done];
    (eexists; split; [reflexivity |]);
    by rewrite fields_named_command_panel.
Qed.

(** C6 (as stated) fails: a permission predicate that raises an
    [AttributeError] makes [send_command_help] raise it; no panel is sent. *)
Lemma foreign_error_surfaces :
  can_run (HelpCommand:=failing_help) roll =
    Raise (OtherException "AttributeError") ∧
  send_command_help (H:=failing_help) roll world0 =
    (Raise (OtherException "AttributeError"), world0).
Proof. split; reflexivity. Qed.

(** C5 (as amended).  The command panel has no "Cooldown" field when the
    command has no cooldown policy; with a policy of rate R per W seconds it
    has one, valued "R per W' seconds" where W' is W printed to the nearest
    whole number of seconds, ties to even. *)
Theorem cooldown_field `{HelpCommand} (command : Command) (w : World) :
  sends_command_panel command w (λ e,
    match cooldown_policy command with
    | None => fields_named "Cooldown" e = []
    | Some cd =>
        fields_named "Cooldown" e =
          [{| field_name := "Cooldown";
              field_value := pretty (rate cd) +:+ " per " +:+
                             format_0f (per cd) +:+ " seconds";
              inline := true |}] ∧
        ∀ m ex, per cd = S754_finite false m ex →
          format_0f (per cd) = pretty (round_half_even m ex) ∧
          nearest_even m ex (round_half_even m ex)
    end).
Proof.
  apply sends_command_panel_intro. intros usable.
  rewrite fields_named_command_panel.
  destruct (cooldown_policy command) as [cd |]; [| done].
  split; [done |]. intros m ex ->. split; [done |].
  apply round_half_even_nearest.
Qed.

(** C5 (as stated) fails: a window of 5.75 seconds is shown as 6, where
    truncation gives 5. *)
Lemma cooldown_window_not_truncated :
  cooldown_policy slow = Some {| rate := 1; per := float_5_75 |} ∧
  bounded 53 1024 6473924464345088 (-50) = true ∧
  truncate 6473924464345088 (-50) = 5 ∧
  ∃ e,
    send_command_help (H:=sample_help) slow world0 =
      (Ret (), log_append world0 (Send e [])) ∧
    fields_named "Cooldown" e =
      [{| field_name := "Cooldown"; field_value := "1 per 6 seconds";
          inline := true |}].
Proof.
  split; [reflexivity |]. split; [vm_compute; reflexivity |].
  split; [vm_compute; reflexivity |].
  exists (command_panel (H:=sample_help) world0 slow "Yes").
  split; vm_compute; reflexivity.
Qed.

(** C4 (as amended).  For a command whose short help is empty or absent,
    the three panels of the dispatcher show "No help found..." in its
    place: the description of the command panel, and the field of the
    command in a group panel and in a category panel, where the filter
    returns the command.  The category panel of the selector shows
    [str(command.help)] for it, the long help or "None", and has no
    fallback. *)
Theorem dispatcher_substitutes_missing_help `{HelpCommand}
    (command : Command) (w : World) :
  no_text (brief command) →
  sends_command_panel command w
    (λ e, description e = Some "No help found...") ∧
  (∀ group,
     sends_list_panel (commands group) (send_group_help group) w
       (λ filtered e, command ∈ filtered →
          {| field_name := get_command_signature command;
             field_value := "No help found..."; inline := true |} ∈ fields e)) ∧
  (∀ c,
     sends_list_panel (get_commands c) (send_cog_help c) w
       (λ filtered e, command ∈ filtered →
          {| field_name := get_command_signature command;
             field_value := "No help found..."; inline := true |} ∈ fields e)) ∧
  (∀ self interaction n c,
     cogs (dropdown_bot self) !! n = Some c →
     command ∈ get_commands c → hidden command = false →
     ∃ e,
       get_help self interaction n w =
         (Ret (), log_append w (EditMessage e ViewMissing)) ∧
       {| field_name := "`" +:+ name command +:+ "`";
          field_value := match help command with
                         | Some body => body
                         | None => "None"
                         end;
          inline := true |} ∈ fields e).
Proof.
  intros Hb.
  assert (Hor : py_or (brief command) "No help found..." = "No help found...")
    by (destruct Hb as [-> | ->]; reflexivity).
  assert (Hf : help_embed_field command =
               {| field_name := get_command_signature command;
                  field_value := "No help found..."; inline := true |})
    by (unfold help_embed_field; by rewrite Hor).
  split_and!.
  - apply sends_command_panel_intro. intros usable. simpl. by rewrite Hor.
  - intros group. apply sends_group_panel_intro. intros filtered _ Hin.
    simpl. rewrite <- Hf. by apply list_elem_of_fmap_2.
  - intros c. apply sends_cog_panel_intro. intros filtered _ Hin.
    simpl. rewrite <- Hf. by apply list_elem_of_fmap_2.
  - intros self interaction n c Hc Hin Hh. eexists.
    split; [by apply get_help_run |]. cbn [category_panel fields].
    apply (list_elem_of_fmap_2 get_help_field).
    by apply list_elem_of_filter.
Qed.

Lemma dispatcher_substitutes_missing_help_witness :
  no_text (brief ping) ∧
  (sends_command_panel (H:=sample_help) ping world0
    (λ e, description e = Some "No help found...") ∧
  (∀ group,
     sends_list_panel (H:=sample_help) (commands group)
       (send_group_help (H:=sample_help) group) world0
       (λ filtered e, ping ∈ filtered →
          {| field_name := get_command_signature (HelpCommand:=sample_help) ping;
             field_value := "No help found..."; inline := true |} ∈ fields e)) ∧
  (∀ c,
     sends_list_panel (H:=sample_help) (get_commands c)
       (send_cog_help (H:=sample_help) c) world0
       (λ filtered e, ping ∈ filtered →
          {| field_name := get_command_signature (HelpCommand:=sample_help) ping;
             field_value := "No help found..."; inline := true |} ∈ fields e)) ∧
  (∀ self interaction n c,
     cogs (dropdown_bot self) !! n = Some c →
     ping ∈ get_commands c → hidden ping = false →
     ∃ e,
       get_help self interaction n world0 =
         (Ret (), log_append world0 (EditMessage e ViewMissing)) ∧
       {| field_name := "`" +:+ name ping +:+ "`";
          field_value := match help ping with
                         | Some body => body
                         | None => "None"
                         end;
          inline := true |} ∈ fields e)).
Proof.
  assert (Hb : no_text (brief ping)) by (left; reflexivity).
  split; [exact Hb |].
  exact (dispatcher_substitutes_missing_help (H:=sample_help) ping world0 Hb).
Defined.

(** C4 (as stated) fails on the path of the selector: the command "ping"
    has no short help, and its field in the panel of [get_help] reads
    "None"; no field of that panel reads "No help found...". *)
Lemma selector_panel_has_no_fallback :
  no_text (brief ping) ∧
  ∃ e,
    callback (selected sample_bot "Fun") sample_interaction world0 =
      (Ret (), log_append world0 (EditMessage e ViewMissing)) ∧
    fields e =
      [{| field_name := "`roll`";
          field_value := "Rolls a die with the given number of sides.";
          inline := true |};
       {| field_name := "`ping`"; field_value := "None"; inline := true |}] ∧
    "No help found..." ∉ field_value <$> fields e.
Proof.
  split; [by left |]. exists (category_panel "Fun" Fun).
  split; [vm_compute; reflexivity |].
  assert (Hf : fields (category_panel "Fun" Fun) =
    [{| field_name := "`roll`";
        field_value := "Rolls a die with the given number of sides.";
        inline := true |};
     {| field_name := "`ping`"; field_value := "None"; inline := true |}])
    by (vm_compute; reflexivity).
  split; [exact Hf |]. rewrite Hf. simpl.
  apply (bool_decide_unpack _). vm_compute. exact I.
Qed.

(** The example of the specification: a command of no cog, without
    cooldown, that the invoker may not run. *)
Example command_panel_not_usable :
  ∃ e,
    send_command_help (H:=denying_help) help_command world0 =
      (Ret (), log_append world0 (Send e [])) ∧
    fields e =
      [{| field_name := "Usable"; field_value := "No"; inline := true |}].
Proof.
  exists (command_panel (H:=denying_help) world0 help_command "No").
  split; reflexivity.
Qed.

(** * Further properties of the code *)

(** ** The selector *)

Lemma log_append_ne w e : log_append w e ≠ w.
Proof.
  intros Heq. apply (f_equal log) in Heq. simpl in Heq.
  apply (f_equal length) in Heq. rewrite length_app in Heq. simpl in Heq. lia.
Qed.



(** X2.  [callback] leaves the world as it was, the message unedited,
    exactly when the selected value names no registered cog and is not
    "Close". *)
Theorem callback_silent_iff
    (self : Dropdown) (interaction : Interaction) (label : string)
    (rest : list string) (w : World) :
  values self = label :: rest →
  callback self interaction w = (Ret (), w) ↔
  cogs (dropdown_bot self) !! label = None ∧ label ≠ "Close".
Proof.
  intros Hv. split.
  - intros Hrun. destruct (cogs (dropdown_bot self) !! label) as [c |] eqn:Hc.
    + rewrite (callback_registered _ _ _ _ _ _ Hv Hc) in Hrun.
      injection Hrun as Hrun. by apply log_append_ne in Hrun.
    + split; [done |]. intros ->.
      rewrite (callback_Close _ _ _ _ Hv Hc) in Hrun.
      injection Hrun as Hrun. by apply log_append_ne in Hrun.
  - intros [Hc Hne]. by eapply callback_unmatched.
Qed.

Lemma callback_silent_iff_witness :
  values (selected sample_bot "Music") = ["Music"] ∧
  (callback (selected sample_bot "Music") sample_interaction world0
     = (Ret (), world0) ↔
   cogs (dropdown_bot (selected sample_bot "Music")) !! "Music" = None ∧
   "Music" ≠ "Close").
Proof.
  assert (Hv : values (selected sample_bot "Music") = ["Music"])
    by reflexivity.
  split; [exact Hv |].
  exact (callback_silent_iff (selected sample_bot "Music") sample_interaction
           "Music" [] world0 Hv).
Defined.

(** X3.  Which cog [callback] renders does not depend on the order in which
    the loop meets the registered names: two name lists that agree on whether
    the label occurs give the same run. *)
Theorem callback_loop_order_irrelevant
    (self : Dropdown) (interaction : Interaction) (label : string)
    (names names' : list string) (w : World) :
  (label ∈ names ↔ label ∈ names') →
  callback_loop self interaction label names w =
  callback_loop self interaction label names' w.
Proof.
  intros Hiff. destruct (decide (label ∈ names)) as [Hin | Hout].
  - rewrite !callback_loop_hit; [done | by apply Hiff | done].
  - rewrite !callback_loop_miss; [done | by rewrite <- Hiff | done].
Qed.

Lemma callback_loop_order_irrelevant_witness :
  ("Fun" ∈ ["Admin"; "Fun"] ↔ "Fun" ∈ ["Fun"; "Fun"; "Admin"]) ∧
  callback_loop (selected sample_bot "Fun") sample_interaction "Fun"
    ["Admin"; "Fun"] world0 =
  callback_loop (selected sample_bot "Fun") sample_interaction "Fun"
    ["Fun"; "Fun"; "Admin"] world0.
Proof.
  assert (Hiff : "Fun" ∈ ["Admin"; "Fun"] ↔ "Fun" ∈ ["Fun"; "Fun"; "Admin"]).
  { split; intros _; apply (bool_decide_unpack _); vm_compute; exact I. }
  split; [exact Hiff |].
  exact (callback_loop_order_irrelevant (selected sample_bot "Fun")
           sample_interaction "Fun" _ _ world0 Hiff).
Defined.


(** X5.  When every cog of the mapping is registered under its name, as in
    the mapping that the host hands to [send_bot_help], each entry that the
    root selector offers, other than "No Category", is answered by exactly
    one edit when it is picked. *)
Theorem offered_entries_are_answered `{HelpCommand}
    (mapping : list (option Cog * list Command)) (w0 w1 w : World)
    (view : DropdownView) (d : Dropdown) (o : SelectOption)
    (interaction : Interaction) :
  (∀ c cmds, (Some c, cmds) ∈ mapping →
     is_Some (cogs (bot context) !! qualified_name c)) →
  send_bot_help mapping w0 = (Ret view, w1) →
  d ∈ children view →
  o ∈ select_options w1 d →
  value o ≠ "No Category" →
  ∃ e v, callback (with_values d [value o]) interaction w =
           (Ret (), log_append w (EditMessage e v)).
Proof.
  intros Hreg Hrun Hd Ho Hne.
  rewrite send_bot_help_run in Hrun.
  destruct (appended_names mapping).2 as [exn |]; [discriminate |].
  injection Hrun as <- <-.
  apply list_elem_of_singleton in Hd as ->.
  unfold select_options, deref in Ho. simpl in Ho.
  rewrite lookup_insert_eq in Ho. simpl in Ho.
  apply (selection_edits_once _ _ (value o) []); [done |]. simpl.
  apply elem_of_app in Ho as [Ho | Ho].
  - left. apply list_elem_of_fmap in Ho as (n & -> & Hn). simpl in *.
    apply elem_of_appended_names in Hn as (cog & cmds & Hin & ->).
    destruct cog as [c |]; [by eapply Hreg | done].
  - apply list_elem_of_singleton in Ho as ->. by right.
Qed.

Lemma offered_entries_are_answered_witness :
  ((∀ c cmds, (Some c, cmds) ∈ sample_mapping →
      is_Some (cogs (bot (context (HelpCommand:=sample_help)))
                 !! qualified_name c)) ∧
   send_bot_help (H:=sample_help) sample_mapping world0 =
     (Ret (DropdownView_init 0%nat sample_context),
      (send_bot_help (H:=sample_help) sample_mapping world0).2) ∧
   Dropdown_init 0%nat sample_context ∈
     children (DropdownView_init 0%nat sample_context) ∧
   entry "Fun" ∈
     select_options (send_bot_help (H:=sample_help) sample_mapping world0).2
       (Dropdown_init 0%nat sample_context) ∧
   value (entry "Fun") ≠ "No Category") ∧
  ∃ e v,
    callback (with_values (Dropdown_init 0%nat sample_context)
                [value (entry "Fun")]) sample_interaction world0 =
    (Ret (), log_append world0 (EditMessage e v)).
Proof.
  assert (Hreg : ∀ c cmds, (Some c, cmds) ∈ sample_mapping →
            is_Some (cogs (bot (context (HelpCommand:=sample_help)))
                       !! qualified_name c)).
  { intros c cmds Hin. unfold sample_mapping in Hin.
    apply elem_of_cons in Hin as [Heq | Hin];
      [injection Heq as -> _; vm_compute; eauto |].
    apply elem_of_cons in Hin as [Heq | Hin];
      [injection Heq as -> _; vm_compute; eauto |].
    apply elem_of_cons in Hin as [Heq | Hin]; [discriminate Heq |].
    by apply not_elem_of_nil in Hin. }
  assert (Hrun : send_bot_help (H:=sample_help) sample_mapping world0 =
            (Ret (DropdownView_init 0%nat sample_context),
             (send_bot_help (H:=sample_help) sample_mapping world0).2))
    by (vm_compute; reflexivity).
  assert (Hd : Dropdown_init 0%nat sample_context ∈
            children (DropdownView_init 0%nat sample_context))
    by (simpl; apply list_elem_of_here).
  assert (Ho : entry "Fun" ∈
            select_options
              (send_bot_help (H:=sample_help) sample_mapping world0).2
              (Dropdown_init 0%nat sample_context))
    by (vm_compute; apply list_elem_of_here).
  assert (Hne : value (entry "Fun") ≠ "No Category") by (simpl; congruence).
  split; [by split_and! |].
  exact (offered_entries_are_answered (H:=sample_help) sample_mapping
           world0 _ world0 _ _ _ sample_interaction Hreg Hrun Hd Ho Hne).
Defined.

Lemma pick_registered b msg label c :
  cogs b !! label = Some c →
  pick b msg label =
  {| message_embed := Some (category_panel label c);
     message_components := message_components msg |}.
Proof.
  intros Hc. unfold pick.
  by rewrite (callback_registered _ _ label [] c).
Qed.

Lemma pick_Close b msg :
  cogs b !! "Close" = None →
  pick b msg "Close" =
  {| message_embed := Some (closed_panel b); message_components := [] |}.
Proof.
  intros Hc. unfold pick. by rewrite (callback_Close _ _ []).
Qed.

(** X6.  The selector stays in use: after any run of selections of
    registered cogs the message still carries the controls it had and shows
    the panel of the cog picked last; "Close", when no cog has that name,
    then leaves the closing panel and no controls. *)
Theorem selections_keep_selector_until_Close
    (b : Bot) (msg : Message) (labels : list string) (last_label : string)
    (c : Cog) :
  Forall (λ l, is_Some (cogs b !! l)) labels →
  cogs b !! last_label = Some c →
  cogs b !! "Close" = None →
  foldl (pick b) msg (labels ++ [last_label]) =
    {| message_embed := Some (category_panel last_label c);
       message_components := message_components msg |} ∧
  pick b (foldl (pick b) msg (labels ++ [last_label])) "Close" =
    {| message_embed := Some (closed_panel b); message_components := [] |}.
Proof.
  intros Hall Hc Hclose.
  assert (Hkeep : ∀ m, message_components (foldl (pick b) m labels)
                       = message_components m).
  { induction Hall as [| l ls [cl Hl] _ IH]; intros m; [done |].
    simpl. rewrite IH. by rewrite (pick_registered _ _ _ cl). }
  split; [| by apply pick_Close].
  rewrite foldl_app. simpl. rewrite (pick_registered _ _ _ c) by done.
  by rewrite Hkeep.
Qed.

Lemma selections_keep_selector_until_Close_witness :
  (Forall (λ l, is_Some (cogs sample_bot !! l)) ["Fun"; "Admin"] ∧
   cogs sample_bot !! "Fun" = Some Fun ∧
   cogs sample_bot !! "Close" = None) ∧
  (foldl (pick sample_bot) root_message (["Fun"; "Admin"] ++ ["Fun"]) =
     {| message_embed := Some (category_panel "Fun" Fun);
        message_components := message_components root_message |} ∧
   pick sample_bot
     (foldl (pick sample_bot) root_message (["Fun"; "Admin"] ++ ["Fun"]))
     "Close" =
     {| message_embed := Some (closed_panel sample_bot);
        message_components := [] |}).
Proof.
  assert (Hall : Forall (λ l, is_Some (cogs sample_bot !! l)) ["Fun"; "Admin"]).
  { repeat constructor; vm_compute; eauto. }
  assert (Hc : cogs sample_bot !! "Fun" = Some Fun) by (vm_compute; reflexivity).
  assert (Hclose : cogs sample_bot !! "Close" = None)
    by (vm_compute; reflexivity).
  split; [by split_and! |].
  exact (selections_keep_selector_until_Close sample_bot root_message
           ["Fun"; "Admin"] "Fun" Fun Hall Hc Hclose).
Defined.

(** ** The dispatcher *)

(** X7.  Every panel that a path of the dispatcher sends has the look of
    [HelpEmbed]: the time of the call as timestamp, the standing footer, the
    blurple colour and no author.  The root path sends its panel when the
    filter returns for every category; the group and the category path send
    theirs when the filter returns, and raise what it raises; the command
    path sends unless the permission predicate raises a foreign exception. *)
Theorem dispatcher_panels_have_help_embed_look `{HelpCommand} (w : World) :
  (∀ mapping, filter_returns mapping →
     ∃ e components view w',
       send_bot_help mapping w = (Ret view, w') ∧
       log w' = log w ++ [Send e components] ∧ help_embed_look w e) ∧
  (∀ group,
     sends_list_panel (commands group) (send_group_help group) w
       (λ _ e, help_embed_look w e)) ∧
  (∀ c,
     sends_list_panel (get_commands c) (send_cog_help c) w
       (λ _ e, help_embed_look w e)) ∧
  (∀ command, sends_command_panel command w (help_embed_look w)).
Proof.
  split_and!.
  - intros mapping Hret. eexists _, _, _, _.
    split; [by apply send_bot_help_returns |]. by split.
  - intros group. by apply sends_group_panel_intro.
  - intros c. by apply sends_cog_panel_intro.
  - intros command. by apply sends_command_panel_intro.
Qed.

(** X8.  The root message, for every mapping on whose categories the filter
    returns: a panel titled with the display name of the bot and " Help",
    without description and without fields, and one select menu that takes
    exactly one choice, has one option more than there are categories with
    a visible command, and whose options each have their label as value. *)
Theorem root_message_shape `{HelpCommand}
    (mapping : list (option Cog * list Command)) (w : World) :
  filter_returns mapping →
  ∃ e menu view w',
    send_bot_help mapping w = (Ret view, w') ∧
    log w' = log w ++ [Send e [menu]] ∧
    title e = Some (me_display_name context +:+ " Help") ∧
    description e = None ∧ fields e = [] ∧
    menu_placeholder menu = "Select a category" ∧
    menu_min_values menu = 1 ∧ menu_max_values menu = 1 ∧
    length (menu_options menu) =
      S (length (filter (λ it, has_visible_command it.2) mapping)) ∧
    ∀ o, o ∈ menu_options menu → value o = label o.
Proof.
  intros Hret.
  eexists _, _, _, _. split; [by apply send_bot_help_returns |].
  split; [reflexivity |]. cbn [menu_of menu_options menu_placeholder
    menu_min_values menu_max_values root_panel title description fields].
  split_and!; try done.
  - rewrite length_app. unfold visible_names.
    rewrite !length_fmap. simpl. lia.
  - intros o [Ho | Ho]%elem_of_app.
    + by apply list_elem_of_fmap in Ho as (n & -> & _).
    + by apply list_elem_of_singleton in Ho as ->.
Qed.

Lemma root_message_shape_witness :
  filter_returns (H:=sample_help) sample_mapping ∧
  ∃ e menu view w',
    send_bot_help (H:=sample_help) sample_mapping world0 = (Ret view, w') ∧
    log w' = log world0 ++ [Send e [menu]] ∧
    title e =
      Some (me_display_name (context (HelpCommand:=sample_help)) +:+ " Help") ∧
    description e = None ∧ fields e = [] ∧
    menu_placeholder menu = "Select a category" ∧
    menu_min_values menu = 1 ∧ menu_max_values menu = 1 ∧
    length (menu_options menu) =
      S (length (filter (λ it, has_visible_command (H:=sample_help) it.2)
                   sample_mapping)) ∧
    ∀ o, o ∈ menu_options menu → value o = label o.
Proof.
  assert (Hr : filter_returns (H:=sample_help) sample_mapping).
  { repeat constructor; eexists; vm_compute; reflexivity. }
  split; [exact Hr |].
  exact (root_message_shape (H:=sample_help) sample_mapping world0 Hr).
Defined.

(** X9.  Two root renders do not share their selector: after a first
    render that has sent its selector, a second render, whether it returns
    or raises, leaves the options of the first selector as they were, uses a
    list object of its own, and changes no list object that existed
    before. *)
Theorem root_renders_are_independent `{HelpCommand}
    (m1 m2 : list (option Cog * list Command)) (w w1 : World)
    (view1 : DropdownView) :
  send_bot_help m1 w = (Ret view1, w1) →
  ∀ d1, d1 ∈ children view1 →
    select_options (send_bot_help m2 w1).2 d1 = select_options w1 d1 ∧
    (∀ view2 d2, (send_bot_help m2 w1).1 = Ret view2 → d2 ∈ children view2 →
       options d1 ≠ options d2) ∧
    (∀ l, is_Some (heap w !! l) →
       heap (send_bot_help m2 w1).2 !! l = heap w !! l).
Proof.
  intros Hrun d1 Hd1. rewrite send_bot_help_run in Hrun.
  destruct (appended_names m1).2 as [exn |]; [discriminate |].
  injection Hrun as <- <-. apply list_elem_of_singleton in Hd1 as ->.
  set (l1 := fresh (dom (heap w))).
  set (os1 := (entry <$> (appended_names m1).1) ++ [entry "Close"]).
  set (w1 := {| heap := <[l1 := os1]> (heap w); clock := clock w;
                log := log w ++ [Send (root_panel w) [menu_of os1]] |}).
  set (l2 := fresh (dom (heap w1))).
  assert (Hl1 : l1 ∉ dom (heap w)) by apply is_fresh.
  assert (Hl2 : l2 ∉ dom (heap w1)) by apply is_fresh.
  assert (Hne : l1 ≠ l2).
  { intros Heq. apply Hl2. rewrite <- Heq. apply elem_of_dom.
    simpl. rewrite lookup_insert_eq. eauto. }
  assert (Hheap : ∃ os2, heap (send_bot_help m2 w1).2 = <[l2 := os2]> (heap w1)).
  { rewrite send_bot_help_run. fold l2.
    destruct (appended_names m2).2; simpl; eauto. }
  destruct Hheap as [os2 Hheap].
  split_and!.
  - unfold select_options, deref. cbn [Dropdown_init options].
    rewrite Hheap. by rewrite lookup_insert_ne by done.
  - intros view2 d2 Hret Hd2. rewrite send_bot_help_run in Hret. fold l2 in Hret.
    destruct (appended_names m2).2; [discriminate |].
    simpl in Hret. injection Hret as <-.
    by apply list_elem_of_singleton in Hd2 as ->.
  - intros l Hl. apply elem_of_dom in Hl. rewrite Hheap. simpl.
    rewrite !lookup_insert_ne; [done | | ].
    + intros <-. done.
    + intros <-. apply Hl2. simpl. rewrite dom_insert. set_solver.
Qed.

Lemma root_renders_are_independent_witness :
  send_bot_help (H:=sample_help) sample_mapping world0 =
    (Ret (DropdownView_init 0%nat sample_context),
     (send_bot_help (H:=sample_help) sample_mapping world0).2) ∧
  ∀ d1, d1 ∈ children (DropdownView_init 0%nat sample_context) →
    select_options
      (send_bot_help (H:=sample_help) close_mapping
         (send_bot_help (H:=sample_help) sample_mapping world0).2).2 d1 =
    select_options (send_bot_help (H:=sample_help) sample_mapping world0).2 d1 ∧
    (∀ view2 d2,
       (send_bot_help (H:=sample_help) close_mapping
          (send_bot_help (H:=sample_help) sample_mapping world0).2).1
       = Ret view2 →
       d2 ∈ children view2 → options d1 ≠ options d2) ∧
    (∀ l, is_Some (heap world0 !! l) →
       heap (send_bot_help (H:=sample_help) close_mapping
               (send_bot_help (H:=sample_help) sample_mapping world0).2).2 !! l
       = heap world0 !! l).
Proof.
  assert (Hrun : send_bot_help (H:=sample_help) sample_mapping world0 =
            (Ret (DropdownView_init 0%nat sample_context),
             (send_bot_help (H:=sample_help) sample_mapping world0).2))
    by (vm_compute; reflexivity).
  split; [exact Hrun |].
  exact (root_renders_are_independent (H:=sample_help) sample_mapping
           close_mapping world0 _ _ Hrun).
Defined.

(** X10.  Where the filter returns, the group panel is titled with the
    signature of the group and described by its long help, and the category
    panel is titled with the name of the cog and " Category" and described
    by the description of the cog.  An empty or absent text is replaced by
    "No help found...", and for a cog without a name the title reads
    "No Category".  Where the filter raises, the path raises the same
    exception and sends nothing. *)
Theorem list_panel_title_and_description `{HelpCommand} (w : World) :
  (∀ group,
     sends_list_panel (commands group) (send_group_help group) w
       (λ _ e,
          title e = Some (get_command_signature (group_command group)) ∧
          (no_text (help (group_command group)) →
           description e = Some "No help found...") ∧
          (∀ s, help (group_command group) = Some s → s ≠ "" →
           description e = Some s))) ∧
  (∀ c,
     sends_list_panel (get_commands c) (send_cog_help c) w
       (λ _ e,
          (qualified_name c ≠ "" →
           title e = Some (qualified_name c +:+ " Category")) ∧
          (qualified_name c = "" → title e = Some "No Category") ∧
          (cog_description c = "" →
           description e = Some "No help found...") ∧
          (cog_description c ≠ "" →
           description e = Some (cog_description c)))).
Proof.
  split.
  - intros group. apply sends_group_panel_intro. intros filtered _.
    cbn [list_panel title description]. split_and!; [done | |].
    + by intros [-> | ->].
    + intros s -> Hs. simpl. by destruct (decide (s = "")).
  - intros c. apply sends_cog_panel_intro. intros filtered _.
    cbn [list_panel title description py_or].
    split_and!; intros Hq; destruct (decide _); try done; by rewrite ?Hq.
Qed.

Lemma py_or_nonempty (x : option string) (d : string) :
  d ≠ "" → py_or x d ≠ "".
Proof. intros Hd. destruct x as [s |]; simpl; [by destruct (decide _) | done]. Qed.

(** X11.  The description of a command, group or category panel is never
    empty, and neither is the value of a field of a group or category
    panel: an empty or absent text is replaced before the panel is built. *)
Theorem descriptions_and_list_values_are_non_empty `{HelpCommand} (w : World) :
  (∀ panel_title panel_description cmds,
     sends_list_panel cmds
       (send_help_embed panel_title panel_description cmds) w
       (λ _ e, (∃ s, description e = Some s ∧ s ≠ "") ∧
               ∀ f, f ∈ fields e → field_value f ≠ "")) ∧
  (∀ command, sends_command_panel command w
     (λ e, ∃ s, description e = Some s ∧ s ≠ "")).
Proof.
  split.
  - intros panel_title panel_description cmds.
    apply sends_list_panel_intro. intros filtered _.
    cbn [list_panel description fields]. split.
    + eexists. split; [reflexivity |]. by apply py_or_nonempty.
    + intros f (c & -> & _)%list_elem_of_fmap. simpl. by apply py_or_nonempty.
  - intros command. apply sends_command_panel_intro. intros usable.
    eexists. split; [reflexivity |]. by apply py_or_nonempty.
Qed.

(** X16.  When the filter of the host raises on a category of the mapping,
    and has returned on the categories before it, [send_bot_help] raises
    that exception: no message is sent, and the entries of the visible
    categories before it stay in the option list that was built. *)
Theorem root_render_fails_with_filter `{HelpCommand}
    (pre post : list (option Cog * list Command)) (cog : option Cog)
    (commands : list Command) (exn : PyExn) (w : World) :
  filter_returns pre →
  filter_commands commands = Raise exn →
  ∃ w',
    send_bot_help (pre ++ (cog, commands) :: post) w = (Raise exn, w') ∧
    log w' = log w ∧ clock w' = clock w ∧
    deref w' (fresh (dom (heap w))) =
      (λ n, SelectOption_init n n) <$> visible_names pre.
Proof.
  intros Hpre Hf. eexists. split.
  { rewrite send_bot_help_run.
    by rewrite (appended_names_filter_raises _ _ _ _ exn Hpre Hf). }
  split; [done |]. split; [done |].
  unfold deref. simpl. by rewrite lookup_insert_eq.
Qed.

Lemma root_render_fails_with_filter_witness :
  (filter_returns (H:=failing_help) [(Some Admin, [ban])] ∧
   filter_commands (HelpCommand:=failing_help) [roll; ping] =
     Raise (OtherException "AttributeError")) ∧
  ∃ w',
    send_bot_help (H:=failing_help)
      ([(Some Admin, [ban])] ++ (Some Fun, [roll; ping]) ::
       [(None, [help_command])]) world0
    = (Raise (OtherException "AttributeError"), w') ∧
    log w' = log world0 ∧ clock w' = clock world0 ∧
    deref w' (fresh (dom (heap world0))) =
      (λ n, SelectOption_init n n) <$>
      visible_names (H:=failing_help) [(Some Admin, [ban])].
Proof.
  assert (Hr : filter_returns (H:=failing_help) [(Some Admin, [ban])]).
  { repeat constructor; eexists; vm_compute; reflexivity. }
  assert (Hf : filter_commands (HelpCommand:=failing_help) [roll; ping] =
            Raise (OtherException "AttributeError")) by reflexivity.
  split; [by split |].
  exact (root_render_fails_with_filter (H:=failing_help)
           [(Some Admin, [ban])] [(None, [help_command])] (Some Fun)
           [roll; ping] _ world0 Hr Hf).
Defined.

(** ** The command panel and the cooldown window *)

(** X12.  The command panel has a "Category" field exactly when the command
    belongs to a cog, valued by the name of the cog; it always has exactly
    one "Usable" field; and it has no field besides "Category", "Usable" and
    "Cooldown", in this order. *)
Theorem command_panel_fields `{HelpCommand} (command : Command) (w : World) :
  sends_command_panel command w (λ e,
    fields_named "Category" e =
      match cog command with
      | Some c => [{| field_name := "Category"; field_value := c;
                      inline := true |}]
      | None => []
      end ∧
    length (fields_named "Usable" e) = 1%nat ∧
    fields e =
      fields_named "Category" e ++ fields_named "Usable" e ++
      fields_named "Cooldown" e).
Proof.
  apply sends_command_panel_intro. intros usable.
  rewrite !fields_named_command_panel. simpl.
  split_and!; [by rewrite app_nil_r | done |].
  by rewrite !app_nil_r.
Qed.

Lemma round_half_even_whole (m : positive) (e k : Z) :
  e < 0 → Z.pos m = k * 2 ^ (- e) → round_half_even m e = k.
Proof.
  intros He Hm. unfold round_half_even.
  destruct (decide (0 ≤ e)) as [? | _]; [lia |]. cbv zeta.
  assert (Hd : 0 < 2 ^ (- e)) by (apply Z.pow_pos_nonneg; lia).
  rewrite Hm, Z.div_mul, Z.mod_mul by lia.
  replace (2 * 0) with 0 by lia.
  destruct (Z.compare_spec 0 (2 ^ (- e))); lia.
Qed.

(** X13.  A cooldown window of a whole number [k] of seconds is shown as
    that number: the field reads "R per k seconds". *)
Theorem whole_second_window_is_exact `{HelpCommand}
    (command : Command) (w : World) (R : Z) (m : positive) (ex k : Z) :
  cooldown_policy command =
    Some {| rate := R; per := S754_finite false m ex |} →
  ex < 0 →
  Z.pos m = k * 2 ^ (- ex) →
  sends_command_panel command w (λ e,
    fields_named "Cooldown" e =
      [{| field_name := "Cooldown";
          field_value := pretty R +:+ " per " +:+ pretty k +:+ " seconds";
          inline := true |}]).
Proof.
  intros Hp Hex Hm. apply sends_command_panel_intro. intros usable.
  rewrite fields_named_command_panel, Hp. simpl.
  by rewrite (round_half_even_whole m ex k).
Qed.

Lemma whole_second_window_is_exact_witness :
  (cooldown_policy timed =
     Some {| rate := 1; per := S754_finite false 5629499534213120 (-50) |} ∧
   -50 < 0 ∧
   Z.pos 5629499534213120 = 5 * 2 ^ (- (-50))) ∧
  sends_command_panel (H:=sample_help) timed world0 (λ e,
    fields_named "Cooldown" e =
      [{| field_name := "Cooldown";
          field_value := pretty 1 +:+ " per " +:+ pretty 5 +:+ " seconds";
          inline := true |}]).
Proof.
  assert (Hp : cooldown_policy timed =
            Some {| rate := 1;
                    per := S754_finite false 5629499534213120 (-50) |})
    by reflexivity.
  assert (Hex : -50 < 0) by lia.
  assert (Hm : Z.pos 5629499534213120 = 5 * 2 ^ (- (-50)))
    by (vm_compute; reflexivity).
  split; [by split_and! |].
  exact (whole_second_window_is_exact (H:=sample_help) timed world0 1
           5629499534213120 (-50) 5 Hp Hex Hm).
Defined.

(** X14.  The number that [round_half_even] prints is the only integer
    that is nearest to the window, and even on a tie. *)
Theorem round_half_even_unique (m : positive) (e n : Z) :
  nearest_even m e n → n = round_half_even m e.
Proof.
  unfold nearest_even, round_half_even.
  destruct (decide (0 ≤ e)) as [He | He]; [done |].
  cbv zeta. set (d := 2 ^ (- e)).
  assert (Hd : 0 < d) by (apply Z.pow_pos_nonneg; lia).
  pose proof (Z.div_mod (Z.pos m) d ltac:(lia)) as Hm.
  pose proof (Z.mod_pos_bound (Z.pos m) d Hd) as Hr.
  set (q := Z.pos m / d) in *. set (r := Z.pos m mod d) in *.
  intros [Hnear Htie].
  assert (Hn : n = q ∨ n = q + 1) by nia.
  destruct (Z.compare_spec (2 * r) d) as [Heq | Hlt | Hgt].
  - destruct Hn as [-> | ->].
    + rewrite Htie; [done |]. replace (Z.pos m - q * d) with r by lia. lia.
    + assert (Hev : Z.even (q + 1) = true).
      { apply Htie. replace (Z.pos m - (q + 1) * d) with (r - d) by lia. lia. }
      rewrite Z.add_1_r, Z.even_succ, <- Z.negb_even in Hev.
      by destruct (Z.even q).
  - destruct Hn as [-> | ->]; [done |].
    replace (Z.pos m - (q + 1) * d) with (r - d) in Hnear by lia. lia.
  - destruct Hn as [-> | ->]; [| done].
    replace (Z.pos m - q * d) with r in Hnear by lia. lia.
Qed.

Lemma round_half_even_unique_witness :
  nearest_even 23 (-2) 6 ∧ 6 = round_half_even 23 (-2).
Proof.
  assert (Hn : nearest_even 23 (-2) 6).
  { unfold nearest_even. simpl. split; [lia | intros Ht; lia]. }
  split; [exact Hn |].
  exact (round_half_even_unique 23 (-2) 6 Hn).
Defined.

(** X15.  The printed window is the truncated window or one more, and it
    is the truncated one exactly when the fraction is below one half, or is
    one half with an even whole part. *)
Theorem round_half_even_vs_truncate (m : positive) (e : Z) :
  truncate m e ≤ round_half_even m e ≤ truncate m e + 1 ∧
  (round_half_even m e = truncate m e ↔
   0 ≤ e ∨
   2 * (Z.pos m mod 2 ^ (- e)) < 2 ^ (- e) ∨
   (2 * (Z.pos m mod 2 ^ (- e)) = 2 ^ (- e) ∧ Z.even (truncate m e) = true)).
Proof.
  unfold truncate, round_half_even.
  destruct (decide (0 ≤ e)) as [He | He]; [split; [lia | tauto] |].
  cbv zeta. set (d := 2 ^ (- e)). set (q := Z.pos m / d).
  set (r := Z.pos m mod d).
  destruct (Z.compare_spec (2 * r) d) as [Heq | Hlt | Hgt].
  - destruct (Z.even q) eqn:Hq.
    + split; [lia |]. split; [tauto | done].
    + split; [lia |]. split; [lia |].
      intros [? | [? | [_ ?]]]; [lia | lia | congruence].
  - split; [lia |]. split; [tauto | done].
  - split; [lia |]. split; [lia |]. intros [? | [? | [? _]]]; lia.
Qed.
